(** * BrainSync Pro: the question router and its history log

    A shallow embedding of [ProfessionalQASystem] (src/app.py, section 2):
    [ask_question] and [get_conversation_summary], together with the Python
    primitives they rely on (string stripping, slicing, template formatting,
    [enumerate]), and the properties of the router and of the history log.

    Python strings are sequences of Unicode code points, so a [pystr] is a
    list of code points; [len], slicing and [strip] then count what Python
    counts.  The hosted model, the two clocks and the console are the
    effects of the code: they are threaded through a small state and
    exception monad [Py]. *)

From Stdlib Require Import String Ascii DecimalString.
From Stdlib Require Import NArith ZArith Bool Lia List.
Import ListNotations.

Set Implicit Arguments.

(* ===================================================================== *)
(** ** Python strings *)
(* ===================================================================== *)

Module PyStr.

Definition codepoint := N.
Definition pystr := list codepoint.

(** An ASCII literal of the source, as code points. *)
Definition lit (s : string) : pystr :=
  map N_of_ascii (list_ascii_of_string s).

Definition nl : pystr := [10%N].

Fixpoint str_eqb (a b : pystr) : bool :=
  match a, b with
  | [], [] => true
  | x :: a', y :: b' => N.eqb x y && str_eqb a' b'
  | _, _ => false
  end.

(** [str.isspace] on one code point (CPython's [_PyUnicode_IsWhitespace]):
    U+0009..U+000D, U+001C..U+0020, U+0085, U+00A0, U+1680,
    U+2000..U+200A, U+2028, U+2029, U+202F, U+205F, U+3000. *)
Definition isspace (c : codepoint) : bool :=
  ((9 <=? c) && (c <=? 13) || (28 <=? c) && (c <=? 32)
   || (c =? 133) || (c =? 160) || (c =? 5760)
   || (8192 <=? c) && (c <=? 8202)
   || (c =? 8232) || (c =? 8233) || (c =? 8239) || (c =? 8287)
   || (c =? 12288))%N.

(** [s.lstrip()], [s.rstrip()] and [s.strip()] without argument. *)
Fixpoint lstrip (s : pystr) : pystr :=
  match s with
  | [] => []
  | c :: s' => if isspace c then lstrip s' else s
  end.

Definition rstrip (s : pystr) : pystr := rev (lstrip (rev s)).

Definition strip (s : pystr) : pystr := rstrip (lstrip s).

(** Truth value of a sequence: [not s] holds of the empty one only. *)
Definition py_not {A : Type} (s : list A) : bool :=
  match s with [] => true | _ :: _ => false end.

(** [str(n)] for a non-negative [int]. *)
Definition str_of_nat (n : nat) : pystr :=
  lit (NilZero.string_of_uint (Nat.to_uint n)).

(** [needle in hay]. *)
Definition contains (hay needle : pystr) : Prop :=
  exists pre post, hay = pre ++ needle ++ post.

(** [repr(s)] of a string: between single quotes, or between double quotes
    when it holds a single quote and no double quote; the quote in use and
    the backslash are escaped, tab, line feed and carriage return are
    written with their letter, and the other code points up to U+00FF that
    are not printable (the control characters, U+007F to U+00A0 and U+00AD)
    in hexadecimal.  A code point above U+00FF is copied: Python escapes
    those that its Unicode database does not call printable. *)
Definition hex_digit (n : N) : codepoint :=
  (if n <? 10 then 48 + n else 87 + n)%N.

Definition repr_char (quote c : codepoint) : pystr :=
  (if (c =? quote) || (c =? 92) then [92; c]
   else if c =? 9 then [92; 116]
   else if c =? 10 then [92; 110]
   else if c =? 13 then [92; 114]
   else if (c <? 32) || (127 <=? c) && (c <=? 160) || (c =? 173) then
     [92; 120; hex_digit (c / 16); hex_digit (c mod 16)]
   else [c])%N.

Definition py_repr (s : pystr) : pystr :=
  let quote :=
    if existsb (N.eqb 39) s && negb (existsb (N.eqb 34) s) then 34%N else 39%N in
  [quote] ++ flat_map (repr_char quote) s ++ [quote].

(** A string made of white space only (the empty string included). *)
Definition whitespace_only (s : pystr) : Prop :=
  Forall (fun c => isspace c = true) s.

End PyStr.
Import PyStr.

(* ===================================================================== *)
(** ** Python sequences: slices and [enumerate] *)
(* ===================================================================== *)

Module PySeq.

(** A slice bound [i] on a sequence of length [len]: a negative bound
    counts from the end, and every bound is clamped to [0..len]. *)
Definition slice_index (len : nat) (i : Z) : nat :=
  if (i <? 0)%Z then Z.to_nat (Z.max 0 (Z.of_nat len + i))
  else Nat.min (Z.to_nat i) len.

(** [l[start:stop]], a missing bound being [None]. *)
Definition py_slice {A : Type} (l : list A) (start stop : option Z) : list A :=
  let n := length l in
  let lo := match start with None => 0 | Some i => slice_index n i end in
  let hi := match stop with None => n | Some j => slice_index n j end in
  firstn (hi - lo) (skipn lo l).

(** [enumerate(l, start)]. *)
Fixpoint enumerate {A : Type} (l : list A) (start : nat) : list (nat * A) :=
  match l with
  | [] => []
  | x :: l' => (start, x) :: enumerate l' (S start)
  end.

End PySeq.
Import PySeq.

(* ===================================================================== *)
(** ** Exceptions and prompt templates *)
(* ===================================================================== *)

(** The exceptions that can reach the [except Exception] clause of
    [ask_question]: the two that template formatting raises, and
    [Exception], which stands for whatever the hosted model client raises
    (network, quota, authentication), carrying its text. *)
Inductive exn : Type :=
| KeyError (key : pystr)
| ValueError (msg : pystr)
| Exception (msg : pystr).

(** [str(e)]; for a [KeyError] it is the [repr] of the key. *)
Definition str_exn (e : exn) : pystr :=
  match e with
  | KeyError key => py_repr key
  | ValueError msg => msg
  | Exception msg => msg
  end.

Inductive outcome (A : Type) : Type :=
| Returned (a : A)
| Raised (e : exn).
Arguments Returned {A} a.
Arguments Raised {A} e.

Module Template.

(** Keyword arguments of [invoke]: a dict from variable name to value. *)
Definition kwargs := list (pystr * pystr).

Fixpoint dict_get (d : kwargs) (key : pystr) : option pystr :=
  match d with
  | [] => None
  | (k, v) :: d' => if str_eqb k key then Some v else dict_get d' key
  end.

Definition lbrace : codepoint := 123%N.
Definition rbrace : codepoint := 125%N.

(** [template.format] on keyword arguments, for an f-string style template: text is
    copied, a doubled brace stands for one brace, and [{name}] is replaced
    by the value of [name], which is not scanned again.  [field] is the
    name read so far (reversed) while inside braces.  Conversions and
    format specifications, which no template of the program has, are not
    modelled. *)
Fixpoint format_from (tpl : pystr) (field : option pystr) (kw : kwargs)
  : outcome pystr :=
  match tpl with
  | [] =>
      match field with
      | None => Returned []
      | Some _ => Raised (ValueError (lit "expected '}' before end of string"))
      end
  | c :: rest =>
      match field with
      | Some name =>
          if N.eqb c rbrace then
            match dict_get kw (rev name) with
            | None => Raised (KeyError (rev name))
            | Some v =>
                match format_from rest None kw with
                | Returned out => Returned (v ++ out)
                | Raised e => Raised e
                end
            end
          else format_from rest (Some (c :: name)) kw
      | None =>
          if N.eqb c lbrace then
            match rest with
            | c' :: rest' =>
                if N.eqb c' lbrace then
                  match format_from rest' None kw with
                  | Returned out => Returned (lbrace :: out)
                  | Raised e => Raised e
                  end
                else format_from rest (Some []) kw
            | [] => Raised (ValueError (lit "Single '{' encountered in format string"))
            end
          else if N.eqb c rbrace then
            match rest with
            | c' :: rest' =>
                if N.eqb c' rbrace then
                  match format_from rest' None kw with
                  | Returned out => Returned (rbrace :: out)
                  | Raised e => Raised e
                  end
                else Raised (ValueError (lit "Single '}' encountered in format string"))
            | [] => Raised (ValueError (lit "Single '}' encountered in format string"))
            end
          else
            match format_from rest None kw with
            | Returned out => Returned (c :: out)
            | Raised e => Raised e
            end
      end
  end.

Record PromptTemplate : Type := {
  template : pystr;
  input_variables : list pystr
}.

Definition format (t : PromptTemplate) (kw : kwargs) : outcome pystr :=
  format_from (template t) None kw.

End Template.
Import Template.

(** The three templates that [create_chains] builds.  They are assigned
    once, by the constructor, and never again. *)

Definition qa_template : PromptTemplate := {|
  template :=
    lit "You are a knowledgeable AI assistant. Provide clear, accurate, and helpful answers."
    ++ nl ++ nl ++
    lit "Question: {question}"
    ++ nl ++ nl ++
    lit "Answer: Provide a comprehensive response that is informative and easy to understand.";
  input_variables := [lit "question"]
|}.

Definition creative_template : PromptTemplate := {|
  template :=
    lit "You are a creative writing assistant. Create engaging and imaginative content."
    ++ nl ++ nl ++
    lit "Request: {request}" ++ nl ++
    lit "Style: {style}"
    ++ nl ++ nl ++
    lit "Creative Response:";
  input_variables := [lit "request"; lit "style"]
|}.

Definition analysis_template : PromptTemplate := {|
  template :=
    lit "You are a professional analyst. Provide detailed analysis and insights."
    ++ nl ++ nl ++
    lit "Topic: {topic}" ++ nl ++
    lit "Focus: {focus}"
    ++ nl ++ nl ++
    lit "Professional Analysis:";
  input_variables := [lit "topic"; lit "focus"]
|}.

(* ===================================================================== *)
(** ** Floats *)
(* ===================================================================== *)

(** The processing time is a Python [float].  The router subtracts two
    clock readings and rounds the difference, the formatter prints the
    result; nothing else is asked of floats, so they are an interface. *)
Class PyFloat (F : Type) : Type := {
  float_sub : F -> F -> F;
  float_round : F -> nat -> F;
  float_str : F -> pystr
}.

(* ===================================================================== *)
(** ** The session, the outside world and the monad of effects *)
(* ===================================================================== *)

Section Model.

Context {F : Type} `{PyFloat F}.

(** One entry of [conversation_history] (a dict with these five keys). *)
Record Interaction : Type := {
  timestamp : pystr;
  question : pystr;
  answer : pystr;
  processing_time : F;
  chain_type : pystr
}.

Record AppConfig : Type := {
  MODEL_NAME : pystr;
  TEMPERATURE : F;
  MAX_TOKENS : Z;
  MEMORY_WINDOW : Z
}.

(** The fields of the object that its methods read or write after
    construction. *)
Record ProfessionalQASystem : Type := {
  config : AppConfig;
  conversation_history : list Interaction
}.

(** What the hosted model returns: a message with a [content]. *)
Record AIMessage : Type := { content : pystr }.

(** The outside world: the hosted model (its answer to the [n]-th
    invocation, on a given prompt, or the exception it raises) and the two
    clocks ([time.time()] and [datetime.now().strftime(...)]) at their
    [n]-th reading. *)
Record World : Type := {
  llm_invoke : nat -> pystr -> outcome AIMessage;
  time_time_at : nat -> F;
  now_strftime_at : nat -> pystr
}.

(** The mutable state: the object itself, the log of the invocations of
    the hosted model with their results, the number of clock readings, and
    the lines printed on the console. *)
Record Store : Type := {
  self : ProfessionalQASystem;
  llm_log : list (pystr * outcome AIMessage);
  clock_reads : nat;
  stdout : list pystr
}.

Definition Py (A : Type) : Type := World -> Store -> outcome A * Store.

Definition ret {A : Type} (a : A) : Py A := fun _ s => (Returned a, s).

Definition raise {A : Type} (e : exn) : Py A := fun _ s => (Raised e, s).

Definition bind {A B : Type} (m : Py A) (k : A -> Py B) : Py B :=
  fun w s =>
    match m w s with
    | (Returned a, s') => k a w s'
    | (Raised e, s') => (Raised e, s')
    end.

(** [try: body except Exception as e: handler e].  The handler starts from
    the state the body reached when it raised: Python undoes nothing. *)
Definition try_except {A : Type} (body : Py A) (handler : exn -> Py A) : Py A :=
  fun w s =>
    match body w s with
    | (Returned a, s') => (Returned a, s')
    | (Raised e, s') => handler e w s'
    end.

Notation "x <- m ;; k" := (bind m (fun x => k))
  (at level 61, m at next level, right associativity).
Notation "m ;;; k" := (bind m (fun _ => k))
  (at level 61, right associativity).

Definition time_time : Py F :=
  fun w s =>
    (Returned (time_time_at w (clock_reads s)),
     {| self := self s; llm_log := llm_log s;
        clock_reads := S (clock_reads s); stdout := stdout s |}).

Definition datetime_now_strftime : Py pystr :=
  fun w s =>
    (Returned (now_strftime_at w (clock_reads s)),
     {| self := self s; llm_log := llm_log s;
        clock_reads := S (clock_reads s); stdout := stdout s |}).

Definition print (line : pystr) : Py unit :=
  fun _ s =>
    (Returned tt,
     {| self := self s; llm_log := llm_log s;
        clock_reads := clock_reads s; stdout := stdout s ++ [line] |}).

(** One invocation of the hosted model; it is logged whatever its result. *)
Definition llm_call (prompt : pystr) : Py AIMessage :=
  fun w s =>
    let r := llm_invoke w (length (llm_log s)) prompt in
    (r,
     {| self := self s; llm_log := llm_log s ++ [(prompt, r)];
        clock_reads := clock_reads s; stdout := stdout s |}).

(** [(template | llm).invoke(kw)]: fill the template, send the text. *)
Definition chain_invoke (t : PromptTemplate) (kw : kwargs) : Py AIMessage :=
  match format t kw with
  | Returned prompt => llm_call prompt
  | Raised e => raise e
  end.

Definition get_history : Py (list Interaction) :=
  fun _ s => (Returned (conversation_history (self s)), s).

(** [self.conversation_history.append(r)]. *)
Definition history_append (r : Interaction) : Py unit :=
  fun _ s =>
    (Returned tt,
     {| self := {| config := config (self s);
                   conversation_history := conversation_history (self s) ++ [r] |};
        llm_log := llm_log s; clock_reads := clock_reads s; stdout := stdout s |}).

(* ===================================================================== *)
(** ** [ProfessionalQASystem.ask_question] *)
(* ===================================================================== *)

Definition ask_question (question chain_type : pystr) : Py (pystr * bool) :=
  if py_not (strip question) then
    ret (lit "Please enter a valid question.", false)
  else
    try_except
      (start_time <- time_time ;;
       response <-
         (if str_eqb chain_type (lit "qa") then
            chain_invoke qa_template [(lit "question", question)]
          else if str_eqb chain_type (lit "creative") then
            chain_invoke creative_template
              [(lit "request", question); (lit "style", lit "engaging and creative")]
          else if str_eqb chain_type (lit "analysis") then
            chain_invoke analysis_template
              [(lit "topic", question); (lit "focus", lit "comprehensive analysis")]
          else
            chain_invoke qa_template [(lit "question", question)]) ;;
       end_time <- time_time ;;
       let processing_time := float_round (float_sub end_time start_time) 2 in
       let answer := content response in
       now <- datetime_now_strftime ;;
       history_append
         {| timestamp := now;
            question := question;
            answer := answer;
            processing_time := processing_time;
            chain_type := chain_type |} ;;;
       ret (answer, true))
      (fun e =>
         let error_msg := lit "Error processing question: " ++ str_exn e in
         print ([10060%N] ++ lit " " ++ error_msg) ;;;
         ret (error_msg, false)).

(* ===================================================================== *)
(** ** [ProfessionalQASystem.get_conversation_summary] *)
(* ===================================================================== *)

(** The body of the [for] loop: the four lines added for entry [i].  The
    code points written as numbers are U+2753, U+2705 and U+23F1 U+FE0F. *)
Definition summary_step (summary : pystr) (entry : nat * Interaction) : pystr :=
  let (i, interaction) := entry in
  let summary := summary ++
    (lit "**" ++ str_of_nat i ++ lit ". [" ++ timestamp interaction ++ lit "]**" ++ nl) in
  let summary := summary ++
    ([10067%N] ++ lit " **Q:** "
     ++ py_slice (question interaction) None (Some 100%Z)
     ++ (if 100 <? length (question interaction) then lit "..." else [])
     ++ nl) in
  let summary := summary ++
    ([9989%N] ++ lit " **A:** "
     ++ py_slice (answer interaction) None (Some 150%Z)
     ++ (if 150 <? length (answer interaction) then lit "..." else [])
     ++ nl) in
  let summary := summary ++
    ([9201%N; 65039%N] ++ lit " *Processing time: "
     ++ float_str (processing_time interaction) ++ lit "s*" ++ nl ++ nl) in
  summary.

(** The first code point of the heading is U+1F4CA. *)
Definition get_conversation_summary : Py pystr :=
  history <- get_history ;;
  if py_not history then
    ret (lit "No conversation history available.")
  else
    let summary :=
      [128202%N] ++ lit " **Conversation Summary** ("
      ++ str_of_nat (length history) ++ lit " interactions)" ++ nl ++ nl in
    ret (fold_left summary_step
           (enumerate (py_slice history (Some (-5)%Z) None) 1)
           summary).

(* ===================================================================== *)
(** ** Sessions *)
(* ===================================================================== *)

(** The state after [ProfessionalQASystem(config)]: an empty history, the
    hosted model not yet invoked, and the two lines the constructor prints
    (each starts with U+2705). *)
Definition new_session (cfg : AppConfig) : Store := {|
  self := {| config := cfg; conversation_history := [] |};
  llm_log := [];
  clock_reads := 0;
  stdout := [ [9989%N] ++ lit " Gemini model initialized successfully!";
              [9989%N] ++ lit " Prompt chains created successfully!" ]
|}.

(** The two operations the core offers to its front ends. *)
Inductive call : Type :=
| Ask (question chain_type : pystr)
| Summary.

(** What a call gave back: the pair of [ask_question], or the text of
    [get_conversation_summary]. *)
Inductive reply : Type :=
| Asked (text : pystr) (ok : bool)
| Summarised (text : pystr)
| Crashed (e : exn).

Definition perform (c : call) (w : World) (s : Store) : reply * Store :=
  match c with
  | Ask q mode =>
      match ask_question q mode w s with
      | (Returned (text, ok), s') => (Asked text ok, s')
      | (Raised e, s') => (Crashed e, s')
      end
  | Summary =>
      match get_conversation_summary w s with
      | (Returned text, s') => (Summarised text, s')
      | (Raised e, s') => (Crashed e, s')
      end
  end.

(** A session: the calls made one after the other, with their replies. *)
Fixpoint run (calls : list call) (w : World) (s : Store) : list reply * Store :=
  match calls with
  | [] => ([], s)
  | c :: calls' =>
      let (r, s1) := perform c w s in
      let (rs, s2) := run calls' w s1 in
      (r :: rs, s2)
  end.

(** The number of [ask_question] calls that returned [ok = True]. *)
Fixpoint successes (rs : list reply) : nat :=
  match rs with
  | [] => 0
  | Asked _ true :: rs' => S (successes rs')
  | _ :: rs' => successes rs'
  end.

End Model.

Arguments Interaction F : clear implicits.
Arguments AppConfig F : clear implicits.
Arguments ProfessionalQASystem F : clear implicits.
Arguments World F : clear implicits.
Arguments Store F : clear implicits.
Arguments Py F A : clear implicits.

(* ===================================================================== *)
(** ** Test doubles *)
(* ===================================================================== *)

(** Stand-ins for the hosted model and the clocks, on which the router and
    the formatter can be run: times are counted in hundredths of a second,
    one model always answers, the other always fails. *)
Module Double.

Definition two_digits (n : nat) : pystr :=
  (if n <? 10 then lit "0" else []) ++ str_of_nat n.

#[export] Instance centiseconds : PyFloat Z := {|
  float_sub := Z.sub;
  float_round := fun x _ => x;
  float_str := fun x =>
    str_of_nat (Z.to_nat (x / 100)) ++ lit "." ++ two_digits (Z.to_nat (x mod 100))
|}.

Definition cfg : AppConfig Z := {|
  MODEL_NAME := lit "gemini-1.5-flash";
  TEMPERATURE := 50%Z;
  MAX_TOKENS := 1000%Z;
  MEMORY_WINDOW := 10%Z
|}.

Definition answering : World Z := {|
  llm_invoke := fun n _ =>
    Returned {| content := lit "Answer number " ++ str_of_nat (S n) |};
  time_time_at := fun n => (37 * Z.of_nat n)%Z;
  now_strftime_at := fun _ => lit "2025-01-01 12:00:00"
|}.

Definition failing : World Z := {|
  llm_invoke := fun _ _ => Raised (Exception (lit "quota exceeded"));
  time_time_at := fun n => (37 * Z.of_nat n)%Z;
  now_strftime_at := fun _ => lit "2025-01-01 12:00:00"
|}.

Definition fresh : Store Z := new_session cfg.

(** A record with the given question and answer. *)
Definition record (q a : pystr) : Interaction Z := {|
  timestamp := lit "2025-01-01 12:00:00";
  question := q;
  answer := a;
  processing_time := 37%Z;
  chain_type := lit "qa"
|}.

Definition with_history (h : list (Interaction Z)) : Store Z := {|
  self := {| config := cfg; conversation_history := h |};
  llm_log := [];
  clock_reads := 0;
  stdout := []
|}.

(** Seven records, with questions "q1" to "q7". *)
Definition seven : list (Interaction Z) :=
  map (fun n => record (lit "q" ++ str_of_nat n) (lit "a" ++ str_of_nat n))
      [1; 2; 3; 4; 5; 6; 7].


(** A short session: a question, an empty input, a summary, a question. *)
Definition some_calls : list call :=
  [Ask (lit "What is AI?") (lit "qa"); Ask [] (lit "qa"); Summary;
   Ask (lit "A poem about rain") (lit "creative")].

End Double.

(* ===================================================================== *)
(** ** Derived notions used to state the properties *)
(* ===================================================================== *)

(** The texts the three templates give once filled. *)
Definition qa_prompt (q : pystr) : pystr :=
  lit "You are a knowledgeable AI assistant. Provide clear, accurate, and helpful answers."
  ++ nl ++ nl ++
  lit "Question: " ++ q
  ++ nl ++ nl ++
  lit "Answer: Provide a comprehensive response that is informative and easy to understand.".

Definition creative_prompt (q style : pystr) : pystr :=
  lit "You are a creative writing assistant. Create engaging and imaginative content."
  ++ nl ++ nl ++
  lit "Request: " ++ q ++ nl ++
  lit "Style: " ++ style
  ++ nl ++ nl ++
  lit "Creative Response:".

Definition analysis_prompt (q focus : pystr) : pystr :=
  lit "You are a professional analyst. Provide detailed analysis and insights."
  ++ nl ++ nl ++
  lit "Topic: " ++ q ++ nl ++
  lit "Focus: " ++ focus
  ++ nl ++ nl ++
  lit "Professional Analysis:".

(** The prompt [ask_question] hands to the hosted model for a question
    that is not blank (lemma [ask_question_run] below shows that it is). *)
Definition filled_prompt (mode q : pystr) : pystr :=
  if str_eqb mode (lit "qa") then qa_prompt q
  else if str_eqb mode (lit "creative") then
    creative_prompt q (lit "engaging and creative")
  else if str_eqb mode (lit "analysis") then
    analysis_prompt q (lit "comprehensive analysis")
  else qa_prompt q.

(** The record a successful call appends: the clocks are read three times,
    before and after the invocation and for the time stamp. *)
Definition appended {F : Type} `{PyFloat F} (w : World F) (s : Store F)
  (q mode : pystr) (response : AIMessage) : Interaction F := {|
  timestamp := now_strftime_at w (S (S (clock_reads s)));
  question := q;
  answer := content response;
  processing_time :=
    float_round
      (float_sub (time_time_at w (S (clock_reads s)))
                 (time_time_at w (clock_reads s))) 2;
  chain_type := mode
|}.

(** Calling [ask_question q mode] from [s] sends nothing but prompts that
    contain both the question and [constant], and sends exactly one prompt
    when the question is not blank. *)
Definition sends_with {F : Type} `{PyFloat F} (w : World F) (s : Store F)
  (q mode constant : pystr) : Prop :=
  exists sent,
    llm_log (snd (ask_question q mode w s)) = llm_log s ++ sent /\
    (~ whitespace_only q -> length sent = 1) /\
    (forall prompt result, In (prompt, result) sent ->
       contains prompt q /\ contains prompt constant).

Definition empty_input_message : pystr := lit "Please enter a valid question.".

Definition error_prefix : pystr := lit "Error processing question: ".

Definition no_history_message : pystr := lit "No conversation history available.".

(** The first line of a summary of [n] interactions, and its blank line. *)
Definition heading (n : nat) : pystr :=
  [128202%N] ++ lit " **Conversation Summary** ("
  ++ str_of_nat n ++ lit " interactions)" ++ nl ++ nl.

(** The text a summary shows for record [r] as entry number [i]. *)
Definition entry {F : Type} `{PyFloat F} (i : nat) (r : Interaction F) : pystr :=
  summary_step [] (i, r).

(** The entries of a numbered list of records, one after the other. *)
Definition entries {F : Type} `{PyFloat F} (l : list (nat * Interaction F)) : pystr :=
  concat (map (fun e => entry (fst e) (snd e)) l).

(** A list numbered from [start], as a numbered list is written. *)
Definition numbered {A : Type} (start : nat) (l : list A) : list (nat * A) :=
  combine (seq start (length l)) l.

(** A string cut to [n] characters, with dots if something was cut. *)
Definition shown (n : nat) (s : pystr) : pystr :=
  if length s <=? n then s else firstn n s ++ lit "...".

(** The four lines that the summary is to show for record [r] as entry
    number [i]: number and time stamp, question, answer, processing time
    and a blank line.  The code points written as numbers are U+2753,
    U+2705 and U+23F1 U+FE0F. *)
Definition entry_text {F : Type} `{PyFloat F} (i : nat) (r : Interaction F) : pystr :=
  lit "**" ++ str_of_nat i ++ lit ". [" ++ timestamp r ++ lit "]**" ++ nl
  ++ [10067%N] ++ lit " **Q:** " ++ shown 100 (question r) ++ nl
  ++ [9989%N] ++ lit " **A:** " ++ shown 150 (answer r) ++ nl
  ++ [9201%N; 65039%N] ++ lit " *Processing time: "
  ++ float_str (processing_time r) ++ lit "s*" ++ nl ++ nl.

(** A numbered list of records, written out entry after entry. *)
Definition numbered_list_text {F : Type} `{PyFloat F}
  (l : list (nat * Interaction F)) : pystr :=
  concat (map (fun e => entry_text (fst e) (snd e)) l).

(* ===================================================================== *)
(** ** The front ends: constructor, web handlers, command line, start-up *)
(* ===================================================================== *)

(** What [input()] gives on one call: a line of text (without its end of
    line), a [KeyboardInterrupt], or an exception of class [Exception]
    (an [EOFError] when the input is closed). *)
Inductive input_event : Type :=
| Line (text : pystr)
| Interrupt
| InputError (e : exn).

(** Whether the [while True] loop of [cli_mode] is still going round, or
    has met a [break]. *)
Inductive loop_state : Type :=
| Running
| Stopped.

(** How [main] ended: it returned early because its self-test failed, it
    printed an error from its [except] clause, or it came back from
    [launch]. *)
Inductive main_end : Type :=
| SelfTestFailed
| StartFailed (e : exn)
| Launched.

Section FrontEnds.

Context {F : Type} `{PyFloat F}.

(** Python's [str.lower], a table of the Unicode database. *)
Variable lower : pystr -> pystr.

(** [AppConfig()], the configuration with its default values. *)
Variable default_config : AppConfig F.

(** The two calls into the web toolkit that [main] makes:
    [create_complete_interface(qa_system)], which lays the page out and
    registers the handlers, and [demo_interface.launch(...)], which serves
    the page until it is shut down. *)
Variable create_complete_interface : Py F unit.
Variable launch : Py F unit.

Notation "x <- m ;; k" := (bind m (fun x => k))
  (at level 61, m at next level, right associativity).
Notation "m ;;; k" := (bind m (fun _ => k))
  (at level 61, right associativity).

(** ["=" * 60]. *)
Definition rule : pystr := repeat 61%N 60.

(** *** The constructor *)

(** [setup_model]: [client] is what building the model client gave. *)
Definition setup_model (client : outcome unit) : Py F unit :=
  match client with
  | Returned _ =>
      print ([9989%N] ++ lit " Gemini model initialized successfully!")
  | Raised e =>
      print ([10060%N] ++ lit " Error initializing model: " ++ str_exn e) ;;;
      raise e
  end.

Definition create_chains : Py F unit :=
  print ([9989%N] ++ lit " Prompt chains created successfully!").

(** [ProfessionalQASystem(config)]: the new object becomes the one the
    store holds. *)
Definition ProfessionalQASystem_init (cfg : AppConfig F) (client : outcome unit)
  : Py F unit :=
  (fun _ s =>
     (Returned tt,
      {| self := {| config := cfg; conversation_history := [] |};
         llm_log := llm_log s; clock_reads := clock_reads s;
         stdout := stdout s |})) ;;;
  setup_model client ;;;
  create_chains.

(** *** The handlers of the web page *)

(** The code points written as numbers are U+26A0 U+FE0F, U+2705, U+274C. *)
Definition process_question (question chain_type : pystr) : Py F (pystr * pystr) :=
  if py_not (strip question) then
    ret ([], lit "<div style='color: red;'>" ++ [9888%N; 65039%N]
             ++ lit " Please enter a question</div>")
  else
    r <- ask_question question chain_type ;;
    let (answer, success) := r in
    let status :=
      if success then
        lit "<div style='color: green;'>" ++ [9989%N]
        ++ lit " Response generated successfully!</div>"
      else
        lit "<div style='color: red;'>" ++ [10060%N]
        ++ lit " Error generating response</div>" in
    ret (answer, status).

Definition clear_inputs : Py F (pystr * pystr) := ret ([], []).

(** What the user does on the page: press the ask button with a question
    and a mode selected, or press the clear button. *)
Inductive ui_event : Type :=
| Submit (question chain_type : pystr)
| Clear.

Definition handle (ev : ui_event) : Py F (pystr * pystr) :=
  match ev with
  | Submit q mode => process_question q mode
  | Clear => clear_inputs
  end.

(** The events of a page, handled one after the other; the outputs of the
    handlers are collected. *)
Fixpoint ui_run (events : list ui_event) : Py F (list (pystr * pystr)) :=
  match events with
  | [] => ret []
  | ev :: events' =>
      out <- handle ev ;;
      outs <- ui_run events' ;;
      ret (out :: outs)
  end.

(** *** The command line *)

(** The text [input] writes before it reads; it is recorded on the console
    like a printed line, though no end of line follows it. *)
Definition input_prompt : pystr :=
  nl ++ [128173%N] ++ lit " Your question: ".

Fixpoint str_in (x : pystr) (l : list pystr) : bool :=
  match l with
  | [] => false
  | y :: l' => str_eqb x y || str_in x l'
  end.

(** The body of the [try] of the loop, [line] being the call of [input].
    The code points written as numbers are U+1F44B, U+26A0 U+FE0F,
    U+1F914, U+1F916 and U+274C. *)
Definition cli_body (line : Py F pystr) : Py F loop_state :=
  text <- line ;;
  let question := strip text in
  if str_in (lower question) [lit "quit"; lit "exit"; lit "q"] then
    print ([128075%N] ++ lit " Goodbye!") ;;;
    ret Stopped
  else if str_eqb (lower question) (lit "history") then
    summary <- get_conversation_summary ;;
    print summary ;;;
    ret Running
  else if py_not question then
    print ([9888%N; 65039%N] ++ lit "  Please enter a question.") ;;;
    ret Running
  else
    print ([129300%N] ++ lit " Thinking...") ;;;
    r <- ask_question question (lit "qa") ;;
    let (answer, success) := r in
    (if success then
       print (nl ++ [129302%N] ++ lit " AI Response:" ++ nl ++ answer)
     else
       print (nl ++ [10060%N] ++ lit " Error: " ++ answer)) ;;;
    ret Running.

(** One turn of the loop, on what [input] gives. *)
Definition cli_iteration (ev : input_event) : Py F loop_state :=
  print input_prompt ;;;
  match ev with
  | Interrupt =>
      print (nl ++ [128075%N] ++ lit " Goodbye!") ;;;
      ret Stopped
  | Line text =>
      try_except (cli_body (ret text))
        (fun e =>
           print (nl ++ [10060%N] ++ lit " Unexpected error: " ++ str_exn e) ;;;
           ret Running)
  | InputError e =>
      try_except (cli_body (raise e))
        (fun e =>
           print (nl ++ [10060%N] ++ lit " Unexpected error: " ++ str_exn e) ;;;
           ret Running)
  end.

(** The loop on the inputs received so far: it is [Stopped] after a
    [break], and [Running] when it waits for more. *)
Fixpoint cli_loop (inputs : list input_event) : Py F loop_state :=
  match inputs with
  | [] => ret Running
  | ev :: inputs' =>
      st <- cli_iteration ev ;;
      match st with
      | Stopped => ret Stopped
      | Running => cli_loop inputs'
      end
  end.

(** [cli_mode]; the first code point of the banner is U+1F5A5 U+FE0F. *)
Definition cli_mode (client : outcome unit) (inputs : list input_event)
  : Py F loop_state :=
  print (nl ++ rule) ;;;
  print ([128421%N; 65039%N] ++ lit "  COMMAND LINE MODE") ;;;
  print rule ;;;
  ProfessionalQASystem_init default_config client ;;;
  print ([9989%N]
         ++ lit " System ready! Type 'quit' to exit, 'history' to see conversation history.") ;;;
  cli_loop inputs.

(** *** Start-up *)

(** [quick_test]; the code points are U+1F9EA, U+2705, U+1F916, U+274C. *)
Definition quick_test (client : outcome unit) : Py F bool :=
  print ([129514%N] ++ lit " Running Quick Test...") ;;;
  try_except
    (ProfessionalQASystem_init default_config client ;;;
     r <- ask_question (lit "Hello, how are you?") (lit "qa") ;;
     let (answer, success) := r in
     if success then
       print ([9989%N] ++ lit " Quick test PASSED!") ;;;
       print ([129302%N] ++ lit " Response: "
              ++ py_slice answer None (Some 100%Z) ++ lit "...") ;;;
       ret true
     else
       print ([10060%N] ++ lit " Quick test FAILED!") ;;;
       ret false)
    (fun e =>
       print ([10060%N] ++ lit " Test error: " ++ str_exn e) ;;;
       ret false).

(** [main]; the code points are U+1F680, U+1F9EA, U+2705, U+1F4DD, U+274C,
    U+1F3A8, U+1F31F and U+1F4F1. *)
Definition main (client : outcome unit) : Py F main_end :=
  print ([128640%N] ++ lit " Initializing BrainSync Pro...") ;;;
  print rule ;;;
  try_except
    (ProfessionalQASystem_init default_config client ;;;
     print (nl ++ [129514%N] ++ lit " Testing system functionality...") ;;;
     r <- ask_question (lit "What is artificial intelligence?") (lit "qa") ;;
     let (test_answer, test_success) := r in
     if test_success then
       print ([9989%N] ++ lit " System test passed!") ;;;
       print ([128221%N] ++ lit " Test response: "
              ++ py_slice test_answer None (Some 100%Z) ++ lit "...") ;;;
       print (nl ++ [127912%N] ++ lit " Creating professional interface...") ;;;
       create_complete_interface ;;;
       print (nl ++ [127775%N] ++ lit " BrainSync Pro Ready!") ;;;
       print ([128241%N] ++ lit " Launching web interface...") ;;;
       print rule ;;;
       launch ;;;
       ret Launched
     else
       print ([10060%N] ++ lit " System test failed!") ;;;
       ret SelfTestFailed)
    (fun e =>
       print ([10060%N] ++ lit " Error starting application: " ++ str_exn e) ;;;
       print (lit "Please check your API key and internet connection.") ;;;
       ret (StartFailed e)).

(** [complete_startup]; [in_colab] tells whether [google.colab] can be
    imported.  The code points are U+1F680, U+1F4F1, U+1F916, U+1F517. *)
Definition complete_startup (in_colab : bool) (client : outcome unit)
  : Py F main_end :=
  print ([128640%N] ++ lit " BrainSync Pro - Elite AI Intelligence Platform") ;;;
  print rule ;;;
  print ([128241%N] ++ lit " Environment: "
         ++ (if in_colab then lit "Google Colab" else lit "Local/Jupyter")) ;;;
  print ([129302%N] ++ lit " Model: Gemini 1.5 Flash") ;;;
  print ([128279%N] ++ lit " Framework: LangChain") ;;;
  print rule ;;;
  main client.

(** [launch_brainsync_pro]: [None] when the quick test failed, and how
    [main] ended otherwise.  [client1] and [client2] are what building the
    model client gives for the quick test and for [main].  The code points
    are U+1F389, U+1F680 and U+274C. *)
Definition launch_brainsync_pro (in_colab : bool) (client1 client2 : outcome unit)
  : Py F (option main_end) :=
  print ([127881%N] ++ lit " Starting BrainSync Pro...") ;;;
  passed <- quick_test client1 ;;
  if passed then
    print (nl ++ [128640%N] ++ lit " Launching full application...") ;;;
    e <- complete_startup in_colab client2 ;;
    ret (Some e)
  else
    print ([10060%N] ++ lit " System test failed. Please check your setup.") ;;;
    ret None.

End FrontEnds.

(* ===================================================================== *)
(** ** Notions used to state the properties of sessions *)
(* ===================================================================== *)

(** The calls of a session that were answered with [True], in order: the
    question, the mode and the text returned. *)
Fixpoint accepted (calls : list call) (replies : list reply)
  : list (pystr * pystr * pystr) :=
  match calls, replies with
  | Ask q mode :: calls', Asked text true :: replies' =>
      (q, mode, text) :: accepted calls' replies'
  | _ :: calls', _ :: replies' => accepted calls' replies'
  | _, _ => []
  end.

(** The prompts a sequence of calls is expected to send: one for each
    question that [strip] does not empty. *)
Fixpoint prompts_of (calls : list call) : list pystr :=
  match calls with
  | [] => []
  | Ask q mode :: calls' =>
      if py_not (strip q) then prompts_of calls'
      else filled_prompt mode q :: prompts_of calls'
  | Summary :: calls' => prompts_of calls'
  end.

(** What a record shows of itself to the caller of [ask_question]. *)
Definition exchange {F : Type} (r : Interaction F) : pystr * pystr * pystr :=
  (question r, chain_type r, answer r).

(** The three status lines of the web page. *)
Definition status_ok : pystr :=
  lit "<div style='color: green;'>" ++ [9989%N]
  ++ lit " Response generated successfully!</div>".

Definition status_error : pystr :=
  lit "<div style='color: red;'>" ++ [10060%N]
  ++ lit " Error generating response</div>".

Definition status_empty : pystr :=
  lit "<div style='color: red;'>" ++ [9888%N; 65039%N]
  ++ lit " Please enter a question</div>".

(** How many of the outputs of the handlers carry the status [st]. *)
Fixpoint count_status (st : pystr) (outs : list (pystr * pystr)) : nat :=
  match outs with
  | [] => 0
  | out :: outs' =>
      (if str_eqb (snd out) st then 1 else 0) + count_status st outs'
  end.

(** The three words that end the command line. *)
Definition quit_words : list pystr := [lit "quit"; lit "exit"; lit "q"].

(** A call that the command line may make: a summary, or a question in
    mode [qa] that is one of the lines typed, stripped, and not empty. *)
Definition cli_call (inputs : list input_event) (c : call) : Prop :=
  c = Summary \/
  exists text,
    In (Line text) inputs /\ strip text <> [] /\ c = Ask (strip text) (lit "qa").

(** Two stores that differ by what is on the console only. *)
Definition same_but_console {F : Type} (s t : Store F) : Prop :=
  self s = self t /\ llm_log s = llm_log t /\ clock_reads s = clock_reads t.

(** The questions of the two start-up tests. *)
Definition quick_test_question : pystr := lit "Hello, how are you?".

Definition self_test_question : pystr := lit "What is artificial intelligence?".

(** A store whose object is replaced by a new one, with more on the
    console: what the constructor leaves. *)
Definition constructed {F : Type} (cfg : AppConfig F) (s : Store F)
  (lines : list pystr) : Store F := {|
  self := {| config := cfg; conversation_history := [] |};
  llm_log := llm_log s;
  clock_reads := clock_reads s;
  stdout := stdout s ++ lines
|}.

(** What [main] does once its self-test has passed and been reported: the
    interface is created and launched, under the [except] clause of
    [main]. *)
Definition interface_phase {F : Type} (create launch : Py F unit) : Py F main_end :=
  try_except
    (bind create (fun _ =>
     bind (print (nl ++ [127775%N] ++ lit " BrainSync Pro Ready!")) (fun _ =>
     bind (print ([128241%N] ++ lit " Launching web interface...")) (fun _ =>
     bind (print (repeat 61%N 60)) (fun _ =>
     bind launch (fun _ =>
     ret Launched))))))
    (fun e =>
     bind (print ([10060%N] ++ lit " Error starting application: " ++ str_exn e))
          (fun _ =>
     bind (print (lit "Please check your API key and internet connection."))
          (fun _ =>
     ret (StartFailed e)))).

(** Stand-ins for the front ends: a lower-casing of the ASCII letters, an
    interface that does nothing, and what a user may type. *)
Module Script.

Definition ascii_lower (s : pystr) : pystr :=
  map (fun c => if ((65 <=? c) && (c <=? 90))%N then (c + 32)%N else c) s.

Definition no_interface : Py Z unit := ret tt.

Definition typed : list input_event :=
  [Line (lit "  What is AI?  "); Line (lit ""); Line (lit "History");
   InputError (Exception (lit "EOF when reading a line"));
   Line (lit " QUIT "); Line (lit "never read")].

Definition clicks : list ui_event :=
  [Submit (lit "What is AI?") (lit "qa"); Clear; Submit (lit "  ") (lit "qa");
   Submit (lit "A poem about rain") (lit "creative")].

End Script.

(* ===================================================================== *)
(** ** Strings, slices and templates: basic facts *)
(* ===================================================================== *)

Lemma str_eqb_eq (a b : pystr) : str_eqb a b = true <-> a = b.
Proof.
  revert b; induction a as [|x a IH]; intros [|y b]; simpl; split;
    try congruence; try reflexivity.
  - intros E. apply andb_true_iff in E. destruct E as [E1 E2].
    apply N.eqb_eq in E1. apply IH in E2. congruence.
  - intros E. inversion E; subst. apply andb_true_iff. split.
    + apply N.eqb_refl.
    + apply IH. reflexivity.
Qed.

Lemma str_eqb_neq (a b : pystr) : a <> b -> str_eqb a b = false.
Proof.
  intros N. destruct (str_eqb a b) eqn:E; [|reflexivity].
  apply str_eqb_eq in E. contradiction.
Qed.

Lemma lstrip_nil_iff (s : pystr) : lstrip s = [] <-> whitespace_only s.
Proof.
  unfold whitespace_only. induction s as [|c s IH]; simpl.
  - split; [constructor | reflexivity].
  - destruct (isspace c) eqn:E.
    + rewrite IH. split; intros K.
      * constructor; assumption.
      * inversion K; assumption.
    + split; intros K; [discriminate|].
      inversion K; congruence.
Qed.

Lemma lstrip_head (s : pystr) (c : codepoint) (t : pystr) :
  lstrip s = c :: t -> isspace c = false.
Proof.
  induction s as [|d s IH]; simpl; [discriminate|].
  destruct (isspace d) eqn:E; [exact IH|].
  intros K. inversion K; subst. exact E.
Qed.

(** [strip] leaves nothing exactly when there was white space only. *)
Lemma strip_nil_iff (s : pystr) : strip s = [] <-> whitespace_only s.
Proof.
  unfold strip, rstrip. split.
  - intros E.
    assert (E' : lstrip (rev (lstrip s)) = []).
    { rewrite <- (rev_involutive (lstrip (rev (lstrip s)))), E. reflexivity. }
    apply lstrip_nil_iff in E'. apply lstrip_nil_iff.
    destruct (lstrip s) as [|c t] eqn:L; [reflexivity|].
    apply lstrip_head in L.
    unfold whitespace_only in E'. rewrite Forall_forall in E'.
    specialize (E' c). rewrite <- in_rev in E'.
    rewrite E' in L; [discriminate | left; reflexivity].
  - intros W. apply lstrip_nil_iff in W. rewrite W. reflexivity.
Qed.

Lemma strip_not_blank (s : pystr) : strip s <> [] -> ~ whitespace_only s.
Proof. intros N W. apply N, strip_nil_iff, W. Qed.

Lemma py_not_false {A : Type} (l : list A) : l <> [] -> py_not l = false.
Proof. destruct l; [congruence | reflexivity]. Qed.

(** [l[:n]] is the first [n] elements. *)
Lemma py_slice_to {A : Type} (l : list A) (n : nat) :
  py_slice l None (Some (Z.of_nat n)) = firstn n l.
Proof.
  unfold py_slice, slice_index.
  assert (E : (Z.of_nat n <? 0)%Z = false) by (apply Z.ltb_ge; lia).
  rewrite E, Nat2Z.id, Nat.sub_0_r. simpl skipn.
  destruct (Nat.le_gt_cases n (length l)) as [L|L].
  - rewrite Nat.min_l by exact L. reflexivity.
  - rewrite Nat.min_r by lia.
    rewrite !firstn_all2 by lia. reflexivity.
Qed.

(** [l[-k:]] is the last [min k (len l)] elements. *)
Lemma py_slice_last {A : Type} (l : list A) (k : nat) :
  0 < k ->
  py_slice l (Some (- Z.of_nat k)%Z) None =
  skipn (length l - Nat.min k (length l)) l.
Proof.
  intros K. unfold py_slice, slice_index.
  assert (E : (- Z.of_nat k <? 0)%Z = true) by (apply Z.ltb_lt; lia).
  rewrite E.
  assert (I : Z.to_nat (Z.max 0 (Z.of_nat (length l) + - Z.of_nat k))
              = length l - Nat.min k (length l)) by lia.
  rewrite I. apply firstn_all2. rewrite length_skipn. lia.
Qed.

Lemma enumerate_numbered {A : Type} (l : list A) (start : nat) :
  enumerate l start = numbered start l.
Proof.
  unfold numbered. revert start.
  induction l as [|x l IH]; intros start; simpl; [reflexivity|].
  rewrite IH. reflexivity.
Qed.

Lemma format_qa (q : pystr) :
  format qa_template [(lit "question", q)] = Returned (qa_prompt q).
Proof. vm_compute. reflexivity. Qed.

Lemma format_creative (q style : pystr) :
  format creative_template [(lit "request", q); (lit "style", style)]
  = Returned (creative_prompt q style).
Proof. vm_compute. reflexivity. Qed.

Lemma format_analysis (q focus : pystr) :
  format analysis_template [(lit "topic", q); (lit "focus", focus)]
  = Returned (analysis_prompt q focus).
Proof. vm_compute. reflexivity. Qed.

(** The primitives on small inputs. *)

Example strip_example : strip (lit "  a b  ") = lit "a b".
Proof. reflexivity. Qed.

Example strip_blank_example : strip (lit "  ") = [].
Proof. reflexivity. Qed.

Example slice_last_five_example :
  py_slice [1; 2; 3; 4; 5; 6; 7] (Some (-5)%Z) None = [3; 4; 5; 6; 7].
Proof. reflexivity. Qed.

Example slice_short_example :
  py_slice [1; 2; 3] (Some (-5)%Z) None = [1; 2; 3]
  /\ py_slice [1; 2; 3] None (Some 100%Z) = [1; 2; 3].
Proof. split; reflexivity. Qed.

Example enumerate_example :
  enumerate [lit "a"; lit "b"] 1 = [(1, lit "a"); (2, lit "b")].
Proof. reflexivity. Qed.

Example format_braces_example :
  format_from (lit "a{{b}}c{x}") None [(lit "x", lit "{y}")]
  = Returned (lit "a{b}c{y}").
Proof. reflexivity. Qed.

Example repr_example :
  py_repr (lit "question") = lit "'question'"
  /\ py_repr (lit "it's") = [34%N] ++ lit "it's" ++ [34%N]
  /\ py_repr (lit "a" ++ nl ++ [7%N; 233%N; 160%N]) = lit "'a\n\x07" ++ [233%N] ++ lit "\xa0'".
Proof. repeat split; reflexivity. Qed.

Example format_missing_example :
  format_from (lit "a{z}") None [(lit "x", lit "y")] = Raised (KeyError (lit "z")).
Proof. reflexivity. Qed.

(* ===================================================================== *)
(** ** The router, step by step *)
(* ===================================================================== *)

Section Router.

Context {F : Type} `{PyFloat F}.

Implicit Types (w : World F) (s : Store F) (q mode : pystr).

(** The branch on [chain_type] always ends in one invocation of the hosted
    model, on [filled_prompt]. *)
Lemma branch_sends q mode :
  (if str_eqb mode (lit "qa") then
     chain_invoke qa_template [(lit "question", q)]
   else if str_eqb mode (lit "creative") then
     chain_invoke creative_template
       [(lit "request", q); (lit "style", lit "engaging and creative")]
   else if str_eqb mode (lit "analysis") then
     chain_invoke analysis_template
       [(lit "topic", q); (lit "focus", lit "comprehensive analysis")]
   else
     chain_invoke qa_template [(lit "question", q)])
  = llm_call (F := F) (filled_prompt mode q).
Proof.
  unfold filled_prompt, chain_invoke.
  destruct (str_eqb mode (lit "qa")).
  - rewrite format_qa. reflexivity.
  - destruct (str_eqb mode (lit "creative")).
    + rewrite format_creative. reflexivity.
    + destruct (str_eqb mode (lit "analysis")).
      * rewrite format_analysis. reflexivity.
      * rewrite format_qa. reflexivity.
Qed.

(** A blank question is answered at once, and nothing happens. *)
Lemma ask_question_blank w s q mode :
  strip q = [] ->
  ask_question q mode w s = (Returned (empty_input_message, false), s).
Proof.
  intros E. unfold ask_question. rewrite E. reflexivity.
Qed.

(** Any other question reaches the hosted model once, and what follows
    depends on its result. *)
Lemma ask_question_run w s q mode :
  strip q <> [] ->
  ask_question q mode w s =
  let prompt := filled_prompt mode q in
  let result := llm_invoke w (length (llm_log s)) prompt in
  match result with
  | Returned response =>
      (Returned (content response, true),
       {| self := {| config := config (self s);
                     conversation_history :=
                       conversation_history (self s)
                       ++ [appended w s q mode response] |};
          llm_log := llm_log s ++ [(prompt, result)];
          clock_reads := S (S (S (clock_reads s)));
          stdout := stdout s |})
  | Raised e =>
      (Returned (error_prefix ++ str_exn e, false),
       {| self := self s;
          llm_log := llm_log s ++ [(prompt, result)];
          clock_reads := S (clock_reads s);
          stdout := stdout s
                    ++ [[10060%N] ++ lit " " ++ (error_prefix ++ str_exn e)] |})
  end.
Proof.
  intros E. unfold ask_question.
  rewrite (py_not_false E), branch_sends.
  unfold try_except, bind, time_time, llm_call; cbn [self llm_log clock_reads stdout].
  destruct (llm_invoke w (length (llm_log s)) (filled_prompt mode q)) as [response|e];
    reflexivity.
Qed.

(** [ask_question] never lets an exception escape. *)
Lemma ask_question_returns w s q mode :
  exists text ok, fst (ask_question q mode w s) = Returned (text, ok).
Proof.
  destruct (strip q) as [|c t] eqn:E.
  - rewrite ask_question_blank by exact E. simpl. eauto.
  - rewrite ask_question_run by (rewrite E; discriminate).
    cbv zeta. destruct (llm_invoke _ _ _); simpl; eauto.
Qed.

(** A call that reports failure leaves the store's object as it was; one
    that reports success makes the history one longer. *)
Lemma ask_question_history w s q mode text ok :
  fst (ask_question q mode w s) = Returned (text, ok) ->
  let s' := snd (ask_question q mode w s) in
  if ok then
    length (conversation_history (self s'))
    = S (length (conversation_history (self s)))
  else self s' = self s.
Proof.
  destruct (strip q) as [|c t] eqn:E.
  - rewrite ask_question_blank by exact E. simpl.
    intros K. inversion K; subst. reflexivity.
  - rewrite ask_question_run by (rewrite E; discriminate).
    cbv zeta. destruct (llm_invoke _ _ _); simpl; intros K; inversion K; subst.
    + rewrite length_app. simpl. lia.
    + reflexivity.
Qed.

End Router.

(* ===================================================================== *)
(** ** Properties of [ask_question] *)
(* ===================================================================== *)

Section RouterProperties.

Context {F : Type} `{PyFloat F}.

Implicit Types (w : World F) (s : Store F) (q mode : pystr).

Lemma not_blank q : ~ whitespace_only q -> strip q <> [].
Proof. intros N E. apply N, strip_nil_iff, E. Qed.

(** C1.  For a question that is neither empty nor white space only, if the
    hosted model answers the prompt it is sent, [ask_question] returns the
    text of that answer with [True], and the history is the old one with
    exactly one record added at its end, whose [chain_type] is the requested
    mode and whose [question] is the input string itself. *)
Theorem ask_question_success_appends w s q mode response :
  ~ whitespace_only q ->
  llm_invoke w (length (llm_log s)) (filled_prompt mode q) = Returned response ->
  let result := ask_question q mode w s in
  let before := conversation_history (self s) in
  let after := conversation_history (self (snd result)) in
  fst result = Returned (content response, true) /\
  length after = length before + 1 /\
  exists r,
    after = before ++ [r] /\
    chain_type r = mode /\ question r = q /\ answer r = content response.
Proof.
  intros N R. cbv zeta.
  rewrite ask_question_run by exact (not_blank N). cbv zeta. rewrite R. simpl.
  split; [reflexivity|]. split.
  - rewrite length_app. reflexivity.
  - eexists. split; [reflexivity|]. simpl. auto.
Qed.

(** C2.  For every mode, a question that is empty or made of white space
    only gets the fixed message with [False]; the hosted model is not
    invoked, the history is unchanged, and so is everything else. *)
Theorem ask_question_blank_no_effect w s q mode :
  whitespace_only q ->
  let result := ask_question q mode w s in
  fst result = Returned (lit "Please enter a valid question.", false) /\
  llm_log (snd result) = llm_log s /\
  conversation_history (self (snd result)) = conversation_history (self s) /\
  snd result = s.
Proof.
  intros W. apply strip_nil_iff in W. cbv zeta.
  rewrite ask_question_blank by exact W. simpl. auto.
Qed.

(** C3.  If the hosted model is invoked during [ask_question] and raises
    an error, the call returns [False] with a string that describes the
    error (a fixed prefix, then the error's text), and the object, hence its
    history, is exactly as before: no record is appended.  This holds of
    every question; an empty one never reaches the model. *)
Theorem ask_question_failure_atomic w s q mode prompt e :
  llm_log (snd (ask_question q mode w s)) = llm_log s ++ [(prompt, Raised e)] ->
  let result := ask_question q mode w s in
  fst result = Returned (lit "Error processing question: " ++ str_exn e, false) /\
  conversation_history (self (snd result)) = conversation_history (self s) /\
  self (snd result) = self s.
Proof.
  cbv zeta. destruct (strip q) as [|c t] eqn:E.
  - rewrite ask_question_blank by exact E. simpl. intros L.
    apply (f_equal (@length _)) in L. rewrite length_app in L. simpl in L. lia.
  - assert (N : strip q <> []) by (rewrite E; discriminate).
    rewrite ask_question_run by exact N. cbv zeta.
    destruct (llm_invoke w (length (llm_log s)) (filled_prompt mode q))
      as [response|e']; simpl; intros L; apply app_inj_tail in L;
      destruct L as [_ L]; inversion L; subst.
    auto.
Qed.

(** C4, as amended.  When the hosted model fails on the prompt of a
    question that is not blank, the message returned is the fixed prefix
    "Error processing question: " followed by the error's text, verbatim:
    dropping the prefix leaves the error's text. *)
Theorem ask_question_failure_message w s q mode e :
  ~ whitespace_only q ->
  llm_invoke w (length (llm_log s)) (filled_prompt mode q) = Raised e ->
  exists msg,
    fst (ask_question q mode w s) = Returned (msg, false) /\
    msg = lit "Error processing question: " ++ str_exn e /\
    skipn (length (lit "Error processing question: ")) msg = str_exn e.
Proof.
  intros N R.
  rewrite ask_question_run by exact (not_blank N). cbv zeta. rewrite R. simpl fst.
  eexists. split; [reflexivity|]. split; [reflexivity|].
  reflexivity.
Qed.

(** C6.  With a mode that is none of [qa], [creative], [analysis], the call
    returns what it returns with mode [qa] and invokes the hosted model the
    same way; for a question that is not blank it fills the [qa] template
    with the question and sends that text, once: the text of the [qa]
    template in which the question stands where the placeholder was, which
    is also what mode [qa] sends. *)
Theorem unknown_mode_falls_back_to_qa w s q mode :
  mode <> lit "qa" -> mode <> lit "creative" -> mode <> lit "analysis" ->
  fst (ask_question q mode w s) = fst (ask_question q (lit "qa") w s) /\
  llm_log (snd (ask_question q mode w s))
  = llm_log (snd (ask_question q (lit "qa") w s)) /\
  (~ whitespace_only q ->
   format qa_template [(lit "question", q)] = Returned (qa_prompt q) /\
   qa_prompt q
   = lit "You are a knowledgeable AI assistant. Provide clear, accurate, and helpful answers."
     ++ nl ++ nl ++ lit "Question: " ++ q ++ nl ++ nl
     ++ lit "Answer: Provide a comprehensive response that is informative and easy to understand." /\
   exists result,
     llm_log (snd (ask_question q mode w s)) = llm_log s ++ [(qa_prompt q, result)] /\
     llm_log (snd (ask_question q (lit "qa") w s))
     = llm_log s ++ [(qa_prompt q, result)]).
Proof.
  intros N1 N2 N3.
  assert (P : filled_prompt mode q = qa_prompt q).
  { unfold filled_prompt.
    rewrite (str_eqb_neq N1), (str_eqb_neq N2), (str_eqb_neq N3). reflexivity. }
  assert (Q : filled_prompt (lit "qa") q = qa_prompt q) by reflexivity.
  destruct (strip q) as [|c t] eqn:E.
  - rewrite !ask_question_blank by exact E. simpl.
    split; [reflexivity|]. split; [reflexivity|].
    intros W. exfalso. apply W, strip_nil_iff, E.
  - assert (N : strip q <> []) by (rewrite E; discriminate).
    rewrite !ask_question_run by exact N. cbv zeta. rewrite P, Q.
    destruct (llm_invoke w (length (llm_log s)) (qa_prompt q)) as [response|e];
      simpl; (split; [reflexivity|]); (split; [reflexivity|]);
      intros _; (split; [apply format_qa|]); (split; [reflexivity|]);
      eexists; split; reflexivity.
Qed.

Lemma contains_intro (pre needle post hay : pystr) :
  hay = pre ++ needle ++ post -> contains hay needle.
Proof. intros E. exists pre, post. exact E. Qed.

Lemma sends_with_filled w s q mode constant :
  contains (filled_prompt mode q) q ->
  contains (filled_prompt mode q) constant ->
  sends_with w s q mode constant.
Proof.
  intros Cq Cc. unfold sends_with.
  destruct (strip q) as [|c t] eqn:E.
  - exists []. rewrite ask_question_blank by exact E. simpl.
    rewrite app_nil_r. split; [reflexivity|]. split.
    + intros W. exfalso. apply W, strip_nil_iff, E.
    + intros prompt result [].
  - assert (N : strip q <> []) by (rewrite E; discriminate).
    exists [(filled_prompt mode q,
             llm_invoke w (length (llm_log s)) (filled_prompt mode q))].
    rewrite ask_question_run by exact N. cbv zeta.
    split; [destruct (llm_invoke _ _ _); reflexivity|].
    split; [reflexivity|].
    intros prompt result [K|[]]. inversion K; subst. auto.
Qed.

(** C7.  Under mode [creative] every prompt sent to the hosted model
    contains the question and the text "engaging and creative"; under mode
    [analysis], the question and "comprehensive analysis"; and a question
    that is not blank has exactly one prompt sent. *)
Theorem styled_prompts_contain_constants w s q :
  sends_with w s q (lit "creative") (lit "engaging and creative") /\
  sends_with w s q (lit "analysis") (lit "comprehensive analysis").
Proof.
  split; apply sends_with_filled.
  - change (filled_prompt (lit "creative") q)
      with (creative_prompt q (lit "engaging and creative")).
    apply contains_intro with
      (pre := lit "You are a creative writing assistant. Create engaging and imaginative content."
              ++ nl ++ nl ++ lit "Request: ")
      (post := nl ++ lit "Style: " ++ lit "engaging and creative"
               ++ nl ++ nl ++ lit "Creative Response:").
    unfold creative_prompt. rewrite <- !app_assoc. reflexivity.
  - change (filled_prompt (lit "creative") q)
      with (creative_prompt q (lit "engaging and creative")).
    apply contains_intro with
      (pre := lit "You are a creative writing assistant. Create engaging and imaginative content."
              ++ nl ++ nl ++ lit "Request: " ++ q ++ nl ++ lit "Style: ")
      (post := nl ++ nl ++ lit "Creative Response:").
    unfold creative_prompt. rewrite <- !app_assoc. reflexivity.
  - change (filled_prompt (lit "analysis") q)
      with (analysis_prompt q (lit "comprehensive analysis")).
    apply contains_intro with
      (pre := lit "You are a professional analyst. Provide detailed analysis and insights."
              ++ nl ++ nl ++ lit "Topic: ")
      (post := nl ++ lit "Focus: " ++ lit "comprehensive analysis"
               ++ nl ++ nl ++ lit "Professional Analysis:").
    unfold analysis_prompt. rewrite <- !app_assoc. reflexivity.
  - change (filled_prompt (lit "analysis") q)
      with (analysis_prompt q (lit "comprehensive analysis")).
    apply contains_intro with
      (pre := lit "You are a professional analyst. Provide detailed analysis and insights."
              ++ nl ++ nl ++ lit "Topic: " ++ q ++ nl ++ lit "Focus: ")
      (post := nl ++ nl ++ lit "Professional Analysis:").
    unfold analysis_prompt. rewrite <- !app_assoc. reflexivity.
Qed.

End RouterProperties.

(* ===================================================================== *)
(** ** Properties of the history and of its summary *)
(* ===================================================================== *)

Section HistoryProperties.

Context {F : Type} `{PyFloat F}.

Implicit Types (w : World F) (s : Store F) (q mode : pystr).
Implicit Types (r : Interaction F) (h : list (Interaction F)).

Lemma summary_step_app (summary : pystr) (i : nat) r :
  summary_step summary (i, r) = summary ++ entry i r.
Proof.
  unfold entry, summary_step. rewrite <- !app_assoc. reflexivity.
Qed.

Lemma fold_summary (l : list (nat * Interaction F)) (summary : pystr) :
  fold_left summary_step l summary = summary ++ entries l.
Proof.
  revert summary. induction l as [|[i r] l IH]; intros summary.
  - simpl. rewrite app_nil_r. reflexivity.
  - cbn [fold_left]. rewrite IH, summary_step_app.
    unfold entries. simpl. rewrite <- app_assoc. reflexivity.
Qed.

(** The summary in one equation: the state is given back untouched, and
    the text is the fixed message, or the heading and then the entries of
    the records from position [n - min 5 n] on, numbered from 1. *)
Lemma get_conversation_summary_run w s :
  get_conversation_summary w s =
  (Returned
     match conversation_history (self s) with
     | [] => no_history_message
     | _ :: _ =>
         let h := conversation_history (self s) in
         heading (length h)
         ++ entries (numbered 1 (skipn (length h - Nat.min 5 (length h)) h))
     end,
   s).
Proof.
  unfold get_conversation_summary, bind, get_history.
  destruct (conversation_history (self s)) as [|r h] eqn:E; [reflexivity|].
  cbv zeta. unfold py_not, ret.
  rewrite fold_summary, enumerate_numbered.
  change (-5)%Z with (- Z.of_nat 5)%Z.
  rewrite py_slice_last by lia. reflexivity.
Qed.

Lemma successes_cons (x : reply) (rs : list reply) :
  successes (x :: rs) = successes [x] + successes rs.
Proof. destruct x as [text [|]|text|e]; reflexivity. Qed.

(** One call: the history grows by one if the call is an [ask_question]
    that returned [True], and keeps its length otherwise. *)
Lemma perform_history (c : call) w s :
  length (conversation_history (self (snd (perform c w s))))
  = length (conversation_history (self s)) + successes [fst (perform c w s)].
Proof.
  destruct c as [q mode|].
  - destruct (ask_question_returns w s q mode) as (text & ok & E).
    pose proof (ask_question_history w s q mode E) as K. cbv zeta in K.
    unfold perform.
    destruct (ask_question q mode w s) as [o s'] eqn:A.
    simpl in E, K. subst o. destruct ok; simpl.
    + rewrite K. lia.
    + rewrite K. lia.
  - unfold perform. rewrite get_conversation_summary_run. simpl. lia.
Qed.

Lemma run_history (calls : list call) w s :
  length (conversation_history (self (snd (run calls w s))))
  = length (conversation_history (self s)) + successes (fst (run calls w s)).
Proof.
  revert s. induction calls as [|c calls IH]; intros s.
  - simpl. lia.
  - cbn [run]. pose proof (perform_history c w s) as P.
    destruct (perform c w s) as [x s1]. specialize (IH s1).
    destruct (run calls w s1) as [rs s2]. cbn [fst snd] in *.
    rewrite (successes_cons x rs). lia.
Qed.

(** C5.  A session starts with an empty history, and after any sequence of
    calls the length of the history is the number of [ask_question] calls
    that returned [True]; a call that returned [False], for an empty input
    or for a failure of the hosted model, leaves the history as it was. *)
Theorem history_counts_successes w :
  (forall (cfg : AppConfig F) (calls : list call),
     length (conversation_history (self (snd (run calls w (new_session cfg)))))
     = successes (fst (run calls w (new_session cfg)))) /\
  (forall s q mode text,
     fst (ask_question q mode w s) = Returned (text, false) ->
     conversation_history (self (snd (ask_question q mode w s)))
     = conversation_history (self s)).
Proof.
  split.
  - intros cfg calls. rewrite run_history. reflexivity.
  - intros s q mode text E.
    pose proof (ask_question_history w s q mode E) as K. cbv zeta in K.
    rewrite K. reflexivity.
Qed.

Lemma shown_slice (n : nat) (t : pystr) :
  py_slice t None (Some (Z.of_nat n)) ++ (if n <? length t then lit "..." else [])
  = shown n t.
Proof.
  rewrite py_slice_to. unfold shown.
  destruct (length t <=? n) eqn:L.
  - apply Nat.leb_le in L.
    assert (E : (n <? length t) = false) by (apply Nat.ltb_ge; exact L).
    rewrite E, app_nil_r. apply firstn_all2. exact L.
  - apply Nat.leb_gt in L.
    assert (E : (n <? length t) = true) by (apply Nat.ltb_lt; exact L).
    rewrite E. reflexivity.
Qed.

(** The loop body writes the text of the entry. *)
Lemma entry_is_text (i : nat) r : entry i r = entry_text i r.
Proof.
  unfold entry, entry_text, summary_step.
  change 100%Z with (Z.of_nat 100). change 150%Z with (Z.of_nat 150).
  rewrite <- (shown_slice 100 (question r)), <- (shown_slice 150 (answer r)).
  rewrite <- !app_assoc. reflexivity.
Qed.

Lemma entries_are_text (l : list (nat * Interaction F)) :
  entries l = numbered_list_text l.
Proof.
  unfold entries, numbered_list_text. induction l as [|[i r] l IH]; [reflexivity|].
  cbn [map concat fst snd]. rewrite IH, entry_is_text. reflexivity.
Qed.

(** C8.  On an empty history the summary is the fixed no-history message.
    On a history of [n > 0] records it is the heading followed by the
    entries of the last [min 5 n] records, numbered from 1 in the order in
    which they were recorded, each entry being the text of its four lines.
    So on seven records it shows the third to the seventh as entries 1 to
    5. *)
Theorem summary_shows_last_five w s :
  let h := conversation_history (self s) in
  let text := fst (get_conversation_summary w s) in
  (h = [] -> text = Returned (lit "No conversation history available.")) /\
  (h <> [] ->
   exists older recent,
     h = older ++ recent /\
     length recent = Nat.min 5 (length h) /\
     text = Returned (heading (length h)
                      ++ numbered_list_text (combine (seq 1 (length recent)) recent))) /\
  (forall r1 r2 r3 r4 r5 r6 r7,
     h = [r1; r2; r3; r4; r5; r6; r7] ->
     text = Returned (heading 7 ++ entry_text 1 r3 ++ entry_text 2 r4
                      ++ entry_text 3 r5 ++ entry_text 4 r6 ++ entry_text 5 r7)).
Proof.
  cbv zeta. rewrite get_conversation_summary_run. simpl fst.
  split; [|split].
  - intros E. rewrite E. reflexivity.
  - intros N.
    destruct (conversation_history (self s)) as [|r h] eqn:E; [congruence|].
    cbv zeta. set (l := r :: h).
    exists (firstn (length l - Nat.min 5 (length l)) l),
           (skipn (length l - Nat.min 5 (length l)) l).
    split; [symmetry; apply firstn_skipn|].
    split; [rewrite length_skipn; lia|].
    rewrite entries_are_text. reflexivity.
  - intros r1 r2 r3 r4 r5 r6 r7 E. rewrite E.
    cbv zeta. rewrite entries_are_text. unfold numbered_list_text, numbered.
    cbn [length Nat.min Nat.sub skipn seq combine map concat fst snd].
    rewrite app_nil_r. reflexivity.
Qed.


(** C10.  [get_conversation_summary] returns a text, raises nothing, and
    gives back the state it was given: the history and everything else are
    unchanged.  The text depends on the history alone, so two calls on the
    same history return the same string, whatever the clocks and the hosted
    model do in between. *)
Theorem summary_read_only w s :
  (exists text, fst (get_conversation_summary w s) = Returned text) /\
  snd (get_conversation_summary w s) = s /\
  fst (get_conversation_summary w (snd (get_conversation_summary w s)))
  = fst (get_conversation_summary w s) /\
  (forall w' s',
     conversation_history (self s') = conversation_history (self s) ->
     fst (get_conversation_summary w' s') = fst (get_conversation_summary w s)).
Proof.
  rewrite !get_conversation_summary_run. cbn [fst snd].
  split; [eexists; reflexivity|]. split; [reflexivity|].
  split; [reflexivity|].
  intros w' s' E. rewrite get_conversation_summary_run, E. reflexivity.
Qed.

End HistoryProperties.

(* ===================================================================== *)
(** ** The properties at work on the test doubles *)
(* ===================================================================== *)

Import Double.

Lemma what_is_ai_not_blank : ~ whitespace_only (lit "What is AI?").
Proof. apply strip_not_blank. vm_compute. discriminate. Defined.

(** A question answered by the model that always answers. *)
Lemma ask_question_success_appends_witness :
  ~ whitespace_only (lit "What is AI?") /\
  llm_invoke answering 0 (filled_prompt (lit "qa") (lit "What is AI?"))
  = Returned {| content := lit "Answer number 1" |} /\
  fst (ask_question (lit "What is AI?") (lit "qa") answering fresh)
  = Returned (lit "Answer number 1", true) /\
  length (conversation_history (self (snd
    (ask_question (lit "What is AI?") (lit "qa") answering fresh)))) = 0 + 1.
Proof.
  split; [exact what_is_ai_not_blank|]. split; [reflexivity|].
  pose proof (@ask_question_success_appends Z _ answering fresh
                (lit "What is AI?") (lit "qa")
                {| content := lit "Answer number 1" |}
                what_is_ai_not_blank eq_refl) as K.
  cbv zeta in K. destruct K as (A & B & _).
  split; [exact A | exact B].
Defined.

(** Two spaces, under mode [creative]. *)
Lemma ask_question_blank_no_effect_witness :
  whitespace_only (lit "  ") /\
  fst (ask_question (lit "  ") (lit "creative") answering fresh)
  = Returned (lit "Please enter a valid question.", false) /\
  snd (ask_question (lit "  ") (lit "creative") answering fresh) = fresh.
Proof.
  assert (W : whitespace_only (lit "  ")) by (repeat constructor).
  split; [exact W|].
  pose proof (@ask_question_blank_no_effect Z _ answering fresh
                (lit "  ") (lit "creative") W) as K.
  cbv zeta in K. destruct K as (A & _ & _ & D).
  split; [exact A | exact D].
Defined.

(** A question put to the model that always fails. *)
Lemma ask_question_failure_atomic_witness :
  llm_log (snd (ask_question (lit "What is AI?") (lit "qa") failing fresh))
  = llm_log fresh
    ++ [(qa_prompt (lit "What is AI?"), Raised (Exception (lit "quota exceeded")))] /\
  fst (ask_question (lit "What is AI?") (lit "qa") failing fresh)
  = Returned (lit "Error processing question: quota exceeded", false) /\
  conversation_history
    (self (snd (ask_question (lit "What is AI?") (lit "qa") failing fresh))) = [].
Proof.
  assert (L : llm_log (snd (ask_question (lit "What is AI?") (lit "qa") failing fresh))
              = llm_log fresh
                ++ [(qa_prompt (lit "What is AI?"),
                     Raised (Exception (lit "quota exceeded")))])
    by reflexivity.
  split; [exact L|].
  pose proof (@ask_question_failure_atomic Z _ failing fresh
                (lit "What is AI?") (lit "qa") _ _ L) as K.
  cbv zeta in K. destruct K as (A & B & _).
  split; [exact A | exact B].
Defined.

Lemma ask_question_failure_message_witness :
  ~ whitespace_only (lit "What is AI?") /\
  llm_invoke failing 0 (filled_prompt (lit "qa") (lit "What is AI?"))
  = Raised (Exception (lit "quota exceeded")) /\
  fst (ask_question (lit "What is AI?") (lit "qa") failing fresh)
  = Returned (lit "Error processing question: " ++ lit "quota exceeded", false).
Proof.
  split; [exact what_is_ai_not_blank|]. split; [reflexivity|].
  destruct (@ask_question_failure_message Z _ failing fresh
              (lit "What is AI?") (lit "qa")
              (Exception (lit "quota exceeded"))
              what_is_ai_not_blank eq_refl) as (msg & A & B & _).
  rewrite A, B. reflexivity.
Defined.

(** C4 as it was stated fails: the model raises an error whose text is
    "quota exceeded", and the message returned is not that text, but
    "Error processing question: quota exceeded". *)
Lemma failure_message_not_verbatim :
  let result := ask_question (lit "What is AI?") (lit "qa") failing fresh in
  let error := Exception (lit "quota exceeded") in
  llm_log (snd result) = [(qa_prompt (lit "What is AI?"), Raised error)] /\
  fst result = Returned (lit "Error processing question: quota exceeded", false) /\
  fst result <> Returned (str_exn error, false).
Proof.
  cbv zeta. split; [reflexivity|]. split; [reflexivity|].
  intros E. vm_compute in E. discriminate E.
Qed.

Lemma history_counts_successes_witness :
  length (conversation_history (self (snd (run some_calls answering (new_session cfg)))))
  = successes (fst (run some_calls answering (new_session cfg))) /\
  fst (ask_question [] (lit "qa") answering fresh)
  = Returned (lit "Please enter a valid question.", false) /\
  conversation_history (self (snd (ask_question [] (lit "qa") answering fresh)))
  = conversation_history (self fresh).
Proof.
  destruct (@history_counts_successes Z _ answering) as [A B].
  split; [apply A|]. split; [reflexivity|].
  apply (B fresh [] (lit "qa") (lit "Please enter a valid question.")).
  reflexivity.
Defined.

Lemma unknown_mode_falls_back_to_qa_witness :
  lit "poetry" <> lit "qa" /\
  lit "poetry" <> lit "creative" /\
  lit "poetry" <> lit "analysis" /\
  ~ whitespace_only (lit "What is AI?") /\
  fst (ask_question (lit "What is AI?") (lit "poetry") answering fresh)
  = fst (ask_question (lit "What is AI?") (lit "qa") answering fresh) /\
  exists result,
    llm_log (snd (ask_question (lit "What is AI?") (lit "poetry") answering fresh))
    = llm_log fresh ++ [(qa_prompt (lit "What is AI?"), result)].
Proof.
  assert (N1 : lit "poetry" <> lit "qa") by (intros E; vm_compute in E; discriminate E).
  assert (N2 : lit "poetry" <> lit "creative") by (intros E; vm_compute in E; discriminate E).
  assert (N3 : lit "poetry" <> lit "analysis") by (intros E; vm_compute in E; discriminate E).
  destruct (@unknown_mode_falls_back_to_qa Z _ answering fresh
              (lit "What is AI?") (lit "poetry") N1 N2 N3) as (A & _ & C).
  repeat (split; [assumption|]).
  split; [exact what_is_ai_not_blank|].
  split; [exact A|].
  destruct (C what_is_ai_not_blank) as (_ & _ & result & L & _).
  exists result. exact L.
Defined.

Lemma styled_prompts_contain_constants_witness :
  sends_with answering fresh (lit "What is AI?")
    (lit "creative") (lit "engaging and creative") /\
  sends_with answering fresh (lit "What is AI?")
    (lit "analysis") (lit "comprehensive analysis").
Proof.
  exact (@styled_prompts_contain_constants Z _ answering fresh (lit "What is AI?")).
Defined.

Lemma summary_shows_last_five_witness :
  fst (get_conversation_summary answering fresh)
  = Returned (lit "No conversation history available.") /\
  seven <> [] /\
  (exists older recent,
     seven = older ++ recent /\ length recent = 5 /\
     fst (get_conversation_summary answering (with_history seven))
     = Returned (heading 7
                 ++ numbered_list_text (combine (seq 1 (length recent)) recent))) /\
  fst (get_conversation_summary answering (with_history seven))
  = Returned (heading 7
              ++ entry_text 1 (record (lit "q3") (lit "a3"))
              ++ entry_text 2 (record (lit "q4") (lit "a4"))
              ++ entry_text 3 (record (lit "q5") (lit "a5"))
              ++ entry_text 4 (record (lit "q6") (lit "a6"))
              ++ entry_text 5 (record (lit "q7") (lit "a7"))).
Proof.
  pose proof (@summary_shows_last_five Z _ answering fresh) as K0.
  pose proof (@summary_shows_last_five Z _ answering (with_history seven)) as K7.
  cbv zeta in K0, K7. destruct K0 as (A & _ & _). destruct K7 as (_ & B & C).
  assert (N : seven <> []) by discriminate.
  split; [apply A; reflexivity|]. split; [exact N|]. split.
  - destruct (B N) as (older & recent & E1 & E2 & E3).
    exists older, recent. repeat split; assumption.
  - apply (C (record (lit "q1") (lit "a1")) (record (lit "q2") (lit "a2"))).
    reflexivity.
Defined.


Lemma summary_read_only_witness :
  snd (get_conversation_summary answering (with_history seven)) = with_history seven /\
  conversation_history (self (snd (run [Summary] failing (with_history seven))))
  = conversation_history (self (with_history seven)) /\
  fst (get_conversation_summary failing (snd (run [Summary] failing (with_history seven))))
  = fst (get_conversation_summary answering (with_history seven)).
Proof.
  destruct (@summary_read_only Z _ answering (with_history seven)) as (_ & A & _ & B).
  assert (E : conversation_history
                (self (snd (run [Summary] failing (with_history seven))))
              = conversation_history (self (with_history seven))) by reflexivity.
  split; [exact A|]. split; [exact E|]. exact (B failing _ E).
Defined.

(* ===================================================================== *)
(** ** Sessions: what the history, the model log and the console hold *)
(* ===================================================================== *)

Section SessionProperties.

Context {F : Type} `{PyFloat F}.

Implicit Types (w : World F) (s : Store F) (q mode : pystr).

(** The three ways a call of [ask_question] can go, as seen through
    [perform]. *)
Lemma perform_ask w s q mode :
  (strip q = [] /\
   perform (Ask q mode) w s = (Asked empty_input_message false, s)) \/
  (strip q <> [] /\ exists response s',
     llm_invoke w (length (llm_log s)) (filled_prompt mode q) = Returned response /\
     perform (Ask q mode) w s = (Asked (content response) true, s') /\
     conversation_history (self s')
     = conversation_history (self s) ++ [appended w s q mode response] /\
     llm_log s' = llm_log s ++ [(filled_prompt mode q, Returned response)] /\
     stdout s' = stdout s) \/
  (strip q <> [] /\ exists e s',
     llm_invoke w (length (llm_log s)) (filled_prompt mode q) = Raised e /\
     perform (Ask q mode) w s = (Asked (error_prefix ++ str_exn e) false, s') /\
     self s' = self s /\
     llm_log s' = llm_log s ++ [(filled_prompt mode q, Raised e)] /\
     stdout s' = stdout s ++ [[10060%N] ++ lit " " ++ (error_prefix ++ str_exn e)]).
Proof.
  destruct (strip q) as [|c t] eqn:E.
  - left. split; [reflexivity|]. unfold perform.
    rewrite ask_question_blank by exact E. reflexivity.
  - right. assert (N : strip q <> []) by (rewrite E; discriminate).
    rewrite <- E. unfold perform. rewrite ask_question_run by exact N. cbv zeta.
    destruct (llm_invoke w (length (llm_log s)) (filled_prompt mode q))
      as [response|e].
    + left. split; [exact N|]. do 2 eexists. split; [reflexivity|].
      split; [reflexivity|]. simpl. auto.
    + right. split; [exact N|]. do 2 eexists. split; [reflexivity|].
      split; [reflexivity|]. simpl. auto.
Qed.

Lemma perform_summary w s :
  perform Summary w s
  = (Summarised
       match conversation_history (self s) with
       | [] => no_history_message
       | _ :: _ =>
           let h := conversation_history (self s) in
           heading (length h)
           ++ entries (numbered 1 (skipn (length h - Nat.min 5 (length h)) h))
       end, s).
Proof. unfold perform. rewrite get_conversation_summary_run. reflexivity. Qed.

(** A session adds to the history the exchanges that were answered with
    [True], in the order of the calls, and touches nothing else of it. *)
Lemma run_added (calls : list call) w s :
  exists added,
    conversation_history (self (snd (run calls w s)))
    = conversation_history (self s) ++ added /\
    map exchange added = accepted calls (fst (run calls w s)).
Proof.
  revert s. induction calls as [|c calls IH]; intros s.
  - exists []. simpl. rewrite app_nil_r. auto.
  - cbn [run].
    assert (P : exists one,
               conversation_history (self (snd (perform c w s)))
               = conversation_history (self s) ++ one /\
               forall rs, accepted (c :: calls) (fst (perform c w s) :: rs)
                          = map exchange one ++ accepted calls rs).
    { destruct c as [q mode|].
      - destruct (perform_ask w s q mode)
          as [[_ E]|[(_ & response & s' & _ & E & Hh & _)
                    |(_ & e & s' & _ & E & Hs & _)]];
          rewrite E; cbn [fst snd].
        + exists []. rewrite app_nil_r. auto.
        + exists [appended w s q mode response]. split; [exact Hh|reflexivity].
        + exists []. rewrite Hs, app_nil_r. auto.
      - rewrite perform_summary. cbn [fst snd]. exists [].
        rewrite app_nil_r. auto. }
    destruct P as (one & P1 & P2).
    destruct (perform c w s) as [x s1]. cbn [fst snd] in P1, P2.
    destruct (IH s1) as (more & M1 & M2).
    destruct (run calls w s1) as [rs s2]. cbn [fst snd] in *.
    exists (one ++ more). rewrite M1, P1, app_assoc. split; [reflexivity|].
    rewrite map_app, M2. symmetry. apply P2.
Qed.

(** X1.  The history is append-only: after any sequence of calls, from any
    state and whatever the hosted model does, a record that was at some
    position of the history is still there, at the same position; no call
    removes, moves or rewrites a record. *)
Theorem history_is_append_only (calls : list call) w s (i : nat) (r : Interaction F) :
  nth_error (conversation_history (self s)) i = Some r ->
  nth_error (conversation_history (self (snd (run calls w s)))) i = Some r.
Proof.
  intros K. destruct (run_added calls w s) as (added & E & _).
  rewrite E, nth_error_app1; [exact K|].
  apply nth_error_Some. rewrite K. discriminate.
Qed.

(** X2.  The records a session adds are, in the order of the calls, the
    exchanges answered with [True]: each holds the question and the mode of
    its call and the text that call returned. *)
Theorem history_records_accepted_calls (calls : list call) w s :
  exists added,
    conversation_history (self (snd (run calls w s)))
    = conversation_history (self s) ++ added /\
    map exchange added = accepted calls (fst (run calls w s)).
Proof. exact (run_added calls w s). Qed.

(** The prompts logged in a session. *)
Lemma run_prompts (calls : list call) w s :
  map fst (llm_log (snd (run calls w s)))
  = map fst (llm_log s) ++ prompts_of calls.
Proof.
  revert s. induction calls as [|c calls IH]; intros s.
  - simpl. rewrite app_nil_r. reflexivity.
  - cbn [run].
    assert (P : map fst (llm_log (snd (perform c w s))) ++ prompts_of calls
                = map fst (llm_log s) ++ prompts_of (c :: calls)).
    { destruct c as [q mode|].
      - cbn [prompts_of].
        destruct (perform_ask w s q mode)
          as [[B E]|[(N & response & s' & _ & E & _ & L & _)
                    |(N & e & s' & _ & E & _ & L & _)]];
          rewrite E; cbn [fst snd].
        + rewrite B. reflexivity.
        + rewrite L, (py_not_false N), map_app, <- app_assoc. reflexivity.
        + rewrite L, (py_not_false N), map_app, <- app_assoc. reflexivity.
      - rewrite perform_summary. reflexivity. }
    destruct (perform c w s) as [x s1]. cbn [fst snd] in P.
    specialize (IH s1). destruct (run calls w s1) as [rs s2]. cbn [fst snd] in *.
    rewrite IH. exact P.
Qed.

(** X3.  The hosted model is invoked once for every question that is not
    blank, with the prompt of its mode, in the order of the calls, and at no
    other time: not for a blank question, not for a summary, and not a
    second time after a failure. *)
Theorem model_invoked_once_per_question (calls : list call) w s :
  map fst (llm_log (snd (run calls w s)))
  = map fst (llm_log s) ++ prompts_of calls.
Proof. exact (run_prompts calls w s). Qed.

(** X4.  A call of [ask_question] writes on the console exactly when the
    hosted model failed.  If the question is not blank and the hosted model
    raises on its prompt, the call writes one line: U+274C, a space, and
    the very message it returns, "Error processing question: " and the
    error's text.  If the question is blank, or if the hosted model
    answers, the call writes nothing; a call that returns [True] writes
    nothing. *)
Theorem console_line_iff_failure w s q mode text ok :
  fst (ask_question q mode w s) = Returned (text, ok) ->
  let s' := snd (ask_question q mode w s) in
  (ok = true -> stdout s' = stdout s) /\
  (stdout s' = stdout s \/
   (ok = false /\ stdout s' = stdout s ++ [[10060%N] ++ lit " " ++ text] /\
    exists prompt e, llm_log s' = llm_log s ++ [(prompt, Raised e)])) /\
  (forall e,
     ~ whitespace_only q ->
     llm_invoke w (length (llm_log s)) (filled_prompt mode q) = Raised e ->
     ok = false /\
     text = lit "Error processing question: " ++ str_exn e /\
     stdout s' = stdout s ++ [[10060%N] ++ lit " " ++ text] /\
     llm_log s' = llm_log s ++ [(filled_prompt mode q, Raised e)]) /\
  (forall response,
     ~ whitespace_only q ->
     llm_invoke w (length (llm_log s)) (filled_prompt mode q) = Returned response ->
     ok = true /\ stdout s' = stdout s) /\
  (whitespace_only q -> stdout s' = stdout s /\ llm_log s' = llm_log s).
Proof.
  cbv zeta. destruct (strip q) as [|c t] eqn:E.
  - rewrite ask_question_blank by exact E. simpl. intros K.
    assert (W : whitespace_only q) by (apply strip_nil_iff; exact E).
    split; [auto|]. split; [auto|]. split; [|split].
    + intros e N. contradiction.
    + intros response N. contradiction.
    + auto.
  - assert (N : ~ whitespace_only q).
    { intros W. apply strip_nil_iff in W. rewrite W in E. discriminate E. }
    rewrite ask_question_run by (rewrite E; discriminate). cbv zeta.
    destruct (llm_invoke w (length (llm_log s)) (filled_prompt mode q))
      as [response|e]; simpl; intros K; inversion K; subst.
    + split; [auto|]. split; [auto|]. split; [|split].
      * intros e _ D. discriminate D.
      * auto.
      * intros W. contradiction.
    + split; [discriminate|]. split.
      * right. split; [reflexivity|]. split; [reflexivity|]. eauto.
      * split; [|split].
        -- intros e' _ D. inversion D; subst. auto.
        -- intros response _ D. discriminate D.
        -- intros W. contradiction.
Qed.

(** X5.  The question is spliced into the prompt as it is: for every mode
    there are a head and a tail, the same for all questions, such that a
    question that is not blank, whatever characters it holds (braces and
    placeholder names included), reaches the hosted model as head, question,
    tail.  Filling the template never fails. *)
Theorem question_spliced_verbatim mode :
  exists head tail,
    forall w s q,
      ~ whitespace_only q ->
      exists result,
        llm_log (snd (ask_question q mode w s))
        = llm_log s ++ [(head ++ q ++ tail, result)].
Proof.
  assert (Q : exists head tail, forall q, filled_prompt mode q = head ++ q ++ tail).
  { unfold filled_prompt.
    destruct (str_eqb mode (lit "qa"));
      [|destruct (str_eqb mode (lit "creative"));
        [|destruct (str_eqb mode (lit "analysis"))]].
    - exists (lit "You are a knowledgeable AI assistant. Provide clear, accurate, and helpful answers."
              ++ nl ++ nl ++ lit "Question: ").
      eexists. intros q. unfold qa_prompt. rewrite <- !app_assoc. reflexivity.
    - exists (lit "You are a creative writing assistant. Create engaging and imaginative content."
              ++ nl ++ nl ++ lit "Request: ").
      eexists. intros q. unfold creative_prompt. rewrite <- !app_assoc. reflexivity.
    - exists (lit "You are a professional analyst. Provide detailed analysis and insights."
              ++ nl ++ nl ++ lit "Topic: ").
      eexists. intros q. unfold analysis_prompt. rewrite <- !app_assoc. reflexivity.
    - exists (lit "You are a knowledgeable AI assistant. Provide clear, accurate, and helpful answers."
              ++ nl ++ nl ++ lit "Question: ").
      eexists. intros q. unfold qa_prompt. rewrite <- !app_assoc. reflexivity. }
  destruct Q as (head & tail & Q). exists head, tail. intros w s q N.
  rewrite ask_question_run by (intros E; apply N, strip_nil_iff, E).
  cbv zeta. rewrite Q.
  destruct (llm_invoke w (length (llm_log s)) (head ++ q ++ tail));
    eexists; reflexivity.
Qed.

End SessionProperties.

(* ===================================================================== *)
(** ** The summary within a session *)
(* ===================================================================== *)

Section SummaryProperties.

Context {F : Type} `{PyFloat F}.

Implicit Types (w : World F) (s : Store F) (q mode : pystr).
Implicit Types (r : Interaction F) (h : list (Interaction F)).

(** X6.  In a session, the number of interactions that the heading of the
    summary announces is the number of calls of [ask_question] that
    returned [True] so far; when there was none, the summary is the fixed
    no-history message. *)
Theorem summary_heading_counts_successes (cfg : AppConfig F) (calls : list call) w w' :
  let replies := fst (run calls w (new_session cfg)) in
  let text := fst (get_conversation_summary w' (snd (run calls w (new_session cfg)))) in
  (successes replies = 0 -> text = Returned no_history_message) /\
  (0 < successes replies ->
   exists body, text = Returned (heading (successes replies) ++ body)).
Proof.
  cbv zeta. pose proof (run_history calls w (new_session cfg)) as L.
  rewrite get_conversation_summary_run. cbn [fst].
  cbn [new_session self conversation_history length Nat.add] in L.
  destruct (conversation_history (self (snd (run calls w (new_session cfg)))))
    as [|r h] eqn:E.
  - cbn [length] in L. split; [reflexivity | lia].
  - split; [intros Z; rewrite Z in L; discriminate L|].
    intros _. cbv zeta. rewrite L. eexists. reflexivity.
Qed.

(** X7.  A call of [ask_question] that returned [False] does not show in
    the summary: the summary asked for afterwards is the one that would
    have been given before. *)
Theorem failed_ask_keeps_summary w w' s q mode text :
  fst (ask_question q mode w s) = Returned (text, false) ->
  fst (get_conversation_summary w' (snd (ask_question q mode w s)))
  = fst (get_conversation_summary w' s).
Proof.
  intros E. pose proof (ask_question_history w s q mode E) as K. cbv zeta in K.
  rewrite !get_conversation_summary_run. cbn [fst]. rewrite K. reflexivity.
Qed.

Lemma shown_length (n : nat) (t : pystr) : length (shown n t) <= n + 3.
Proof.
  unfold shown. destruct (length t <=? n) eqn:L.
  - apply Nat.leb_le in L. lia.
  - rewrite length_app, length_firstn. simpl. lia.
Qed.

Lemma entry_shown (i : nat) r :
  entry i r =
    (lit "**" ++ str_of_nat i ++ lit ". [" ++ timestamp r ++ lit "]**" ++ nl)
    ++ ([10067%N] ++ lit " **Q:** " ++ shown 100 (question r) ++ nl)
    ++ ([9989%N] ++ lit " **A:** " ++ shown 150 (answer r) ++ nl)
    ++ ([9201%N; 65039%N] ++ lit " *Processing time: "
        ++ float_str (processing_time r) ++ lit "s*" ++ nl ++ nl).
Proof.
  unfold entry, summary_step.
  change 100%Z with (Z.of_nat 100). change 150%Z with (Z.of_nat 150).
  rewrite <- (shown_slice 100 (question r)), <- (shown_slice 150 (answer r)).
  rewrite <- !app_assoc. reflexivity.
Qed.

(** X8.  The size of an entry of the summary does not grow with the
    question or the answer: it is at most 310 characters plus the lengths of
    the entry number, of the time stamp and of the printed processing
    time. *)
Theorem summary_entry_length_bound (i : nat) r :
  length (entry i r)
  <= 310 + length (str_of_nat i) + length (timestamp r)
     + length (float_str (processing_time r)).
Proof.
  rewrite entry_shown.
  pose proof (shown_length 100 (question r)) as Q.
  pose proof (shown_length 150 (answer r)) as A.
  repeat rewrite length_app.
  change (length (lit "**")) with 2. change (length (lit ". [")) with 3.
  change (length (lit "]**")) with 3. change (length nl) with 1.
  change (length (lit " **Q:** ")) with 8. change (length (lit " **A:** ")) with 8.
  change (length (lit " *Processing time: ")) with 19.
  change (length (lit "s*")) with 2.
  cbn [length]. lia.
Qed.

(** X9.  Records older than the last five show in the summary through
    their number only: two histories of the same length that end with the
    same five records have the same summary. *)
Theorem summary_ignores_old_records w w' s s' (older older' recent : list (Interaction F)) :
  conversation_history (self s) = older ++ recent ->
  conversation_history (self s') = older' ++ recent ->
  length recent = 5 ->
  length older = length older' ->
  fst (get_conversation_summary w s) = fst (get_conversation_summary w' s').
Proof.
  intros E E' R L. rewrite !get_conversation_summary_run. cbn [fst].
  rewrite E, E'.
  assert (K : forall (o : list (Interaction F)),
             match o ++ recent with
             | [] => no_history_message
             | _ :: _ =>
                 let h := o ++ recent in
                 heading (length h)
                 ++ entries (numbered 1 (skipn (length h - Nat.min 5 (length h)) h))
             end
             = heading (length o + 5) ++ entries (numbered 1 recent)).
  { intros o. destruct (o ++ recent) as [|x t] eqn:X.
    - apply (f_equal (@length _)) in X. rewrite length_app in X. simpl in X. lia.
    - rewrite <- X. cbv zeta. rewrite length_app, R.
      replace (length o + 5 - Nat.min 5 (length o + 5)) with (length o) by lia.
      rewrite skipn_app, skipn_all, Nat.sub_diag. reflexivity. }
  rewrite !K, L. reflexivity.
Qed.

End SummaryProperties.

(* ===================================================================== *)
(** ** The handlers of the web page *)
(* ===================================================================== *)

Section WebProperties.

Context {F : Type} `{PyFloat F}.

Implicit Types (w : World F) (s : Store F) (q mode : pystr).

Lemma process_question_run w s q mode :
  strip q <> [] ->
  process_question q mode w s =
  match ask_question q mode w s with
  | (Returned (answer, success), s') =>
      (Returned (answer, if success then status_ok else status_error), s')
  | (Raised e, s') => (Raised e, s')
  end.
Proof.
  intros N. unfold process_question, bind. rewrite (py_not_false N).
  destruct (ask_question q mode w s) as [[[answer success]|e] s']; reflexivity.
Qed.

(** X10.  The ask button, pressed on a question that is empty or made of
    white space only, gives an empty answer and the warning status, and
    does nothing else: [ask_question] is not called, so neither the hosted
    model, the history nor the console is touched. *)
Theorem process_question_blank_input w s q mode :
  whitespace_only q ->
  process_question q mode w s = (Returned ([], status_empty), s).
Proof.
  intros W. apply strip_nil_iff in W. unfold process_question.
  rewrite W. reflexivity.
Qed.

(** X11.  The ask button, pressed on any other question, invokes the
    hosted model once, with the prompt of the mode.  If the model answers,
    the handler gives its answer with the green status and the history has
    one more record; if the model raises, the handler gives "Error
    processing question: " and the error's text, with the red error
    status, and the object is unchanged.  In both cases the log of the
    hosted model has exactly one more entry. *)
Theorem process_question_outcomes w s q mode :
  ~ whitespace_only q ->
  let result := process_question q mode w s in
  let before := conversation_history (self s) in
  let after := conversation_history (self (snd result)) in
  (exists response,
     llm_invoke w (length (llm_log s)) (filled_prompt mode q) = Returned response /\
     fst result = Returned (content response, status_ok) /\
     after = before ++ [appended w s q mode response] /\
     llm_log (snd result)
     = llm_log s ++ [(filled_prompt mode q, Returned response)]) \/
  (exists e,
     llm_invoke w (length (llm_log s)) (filled_prompt mode q) = Raised e /\
     fst result = Returned (lit "Error processing question: " ++ str_exn e,
                            status_error) /\
     self (snd result) = self s /\
     llm_log (snd result) = llm_log s ++ [(filled_prompt mode q, Raised e)]).
Proof.
  intros N. assert (S : strip q <> []) by (intros E; apply N, strip_nil_iff, E).
  cbv zeta. rewrite process_question_run by exact S.
  rewrite ask_question_run by exact S. cbv zeta.
  destruct (llm_invoke w (length (llm_log s)) (filled_prompt mode q))
    as [response|e]; cbn [fst snd].
  - left. exists response. cbn [self llm_log conversation_history]. auto.
  - right. exists e. cbn [self llm_log]. auto.
Qed.

Lemma statuses_differ :
  str_eqb status_empty status_ok = false /\
  str_eqb status_empty status_error = false /\
  str_eqb status_ok status_error = false /\
  str_eqb status_error status_ok = false /\
  str_eqb status_ok status_ok = true /\
  str_eqb status_error status_error = true /\
  str_eqb [] status_ok = false /\
  str_eqb [] status_error = false.
Proof. vm_compute. repeat split. Qed.

(** One event of the page: a green status goes with one new record and
    one invocation, a red error status with one invocation, anything else
    with neither. *)
Lemma handle_counts (ev : ui_event) w s :
  exists out s',
    handle ev w s = (Returned out, s') /\
    length (conversation_history (self s'))
    = length (conversation_history (self s)) + count_status status_ok [out] /\
    length (llm_log s')
    = length (llm_log s) + count_status status_ok [out]
      + count_status status_error [out].
Proof.
  destruct statuses_differ as (D1 & D2 & D3 & D4 & D5 & D6 & D7 & D8).
  destruct ev as [q mode|]; cbn [handle].
  - destruct (strip q) as [|c t] eqn:E.
    + exists ([], status_empty), s. unfold process_question. rewrite E.
      cbn [py_not ret count_status snd]. rewrite D1, D2. split; [reflexivity|]. lia.
    + assert (S : strip q <> []) by (rewrite E; discriminate).
      rewrite process_question_run by exact S.
      rewrite ask_question_run by exact S. cbv zeta.
      destruct (llm_invoke w (length (llm_log s)) (filled_prompt mode q))
        as [response|e]; do 2 eexists; (split; [reflexivity|]);
        cbn [count_status snd self llm_log conversation_history];
        rewrite ?D3, ?D4, ?D5, ?D6, ?length_app; cbn [length]; lia.
  - exists ([], []), s. unfold clear_inputs, ret. cbn [count_status snd].
    rewrite D7, D8. split; [reflexivity|]. lia.
Qed.

Lemma count_status_cons (st : pystr) (out : pystr * pystr) (outs : list (pystr * pystr)) :
  count_status st (out :: outs) = count_status st [out] + count_status st outs.
Proof. cbn [count_status]. lia. Qed.

(** X12.  On the web page, whatever buttons are pressed and whatever the
    hosted model does, no handler raises; the history grows by the number of
    green statuses shown, and the hosted model is invoked once for each
    green or red error status.  The clear button and the warning leave the
    history and the model alone: clearing the page does not clear the
    history. *)
Theorem web_page_counts (events : list ui_event) w s :
  exists outs,
    fst (ui_run events w s) = Returned outs /\
    length outs = length events /\
    length (conversation_history (self (snd (ui_run events w s))))
    = length (conversation_history (self s)) + count_status status_ok outs /\
    length (llm_log (snd (ui_run events w s)))
    = length (llm_log s) + count_status status_ok outs
      + count_status status_error outs.
Proof.
  revert s. induction events as [|ev events IH]; intros s.
  - exists []. cbn. repeat split; lia.
  - destruct (handle_counts ev w s) as (out & s1 & E & H1 & L1).
    destruct (IH s1) as (outs & E2 & N2 & H2 & L2).
    assert (R : ui_run (ev :: events) w s
                = (Returned (out :: outs), snd (ui_run events w s1))).
    { cbn [ui_run]. unfold bind. rewrite E.
      destruct (ui_run events w s1) as [o s2]. cbn [fst snd] in *. subst o.
      reflexivity. }
    exists (out :: outs). rewrite R. cbn [fst snd length].
    rewrite !(count_status_cons _ out outs).
    split; [reflexivity|]. split; [lia|]. split; lia.
Qed.

End WebProperties.

(* ===================================================================== *)
(** ** The command line *)
(* ===================================================================== *)

Lemma strip_not_whitespace (t : pystr) :
  strip t <> [] -> ~ whitespace_only (strip t).
Proof.
  unfold strip, rstrip. intros N W.
  destruct (lstrip (rev (lstrip t))) as [|c l] eqn:L; [apply N; reflexivity|].
  apply lstrip_head in L.
  unfold whitespace_only in W. rewrite Forall_forall in W.
  rewrite (W c) in L; [discriminate|].
  apply -> in_rev. left. reflexivity.
Qed.

(** What [strip] leaves is not emptied by a second [strip]. *)
Lemma strip_strip_nonempty (t : pystr) : strip t <> [] -> strip (strip t) <> [].
Proof.
  intros N E. apply (strip_not_whitespace t N), strip_nil_iff, E.
Qed.

Section CommandLineProperties.

Context {F : Type} `{PyFloat F}.

Variable lower : pystr -> pystr.

Implicit Types (w : World F) (s t : Store F) (q mode : pystr).

Lemma same_but_console_refl s : same_but_console s s.
Proof. unfold same_but_console. auto. Qed.

Lemma same_but_console_trans s t u :
  same_but_console s t -> same_but_console t u -> same_but_console s u.
Proof.
  unfold same_but_console. intros (A & B & C) (A' & B' & C').
  repeat split; congruence.
Qed.

(** [ask_question] does not look at the console. *)
Lemma ask_question_console w s t q mode :
  same_but_console s t ->
  fst (ask_question q mode w s) = fst (ask_question q mode w t) /\
  same_but_console (snd (ask_question q mode w s)) (snd (ask_question q mode w t)).
Proof.
  unfold same_but_console. intros (A & B & C).
  destruct (strip q) as [|c l] eqn:E.
  - rewrite !ask_question_blank by exact E. cbn [fst snd]. auto.
  - assert (N : strip q <> []) by (rewrite E; discriminate).
    rewrite !ask_question_run by exact N. cbv zeta.
    unfold appended. rewrite A, B, C.
    destruct (llm_invoke w (length (llm_log t)) (filled_prompt mode q));
      cbn [fst snd self llm_log clock_reads]; auto.
Qed.

Lemma run_app (a b : list call) w s :
  snd (run (a ++ b) w s) = snd (run b w (snd (run a w s))).
Proof.
  revert s. induction a as [|c a IH]; intros s; [reflexivity|].
  cbn [app run]. destruct (perform c w s) as [x s1]. specialize (IH s1).
  destruct (run (a ++ b) w s1) as [rs s2].
  destruct (run a w s1) as [rs' s2']. cbn [fst snd] in *. exact IH.
Qed.

Lemma run_one (c : call) w s : snd (run [c] w s) = snd (perform c w s).
Proof. cbn [run]. destruct (perform c w s). reflexivity. Qed.

(** One turn of the loop never raises, and acts on the object, on the
    hosted model and on the clocks as at most one call of the core does. *)
Lemma cli_iteration_simulates (ev : input_event) w s t :
  same_but_console s t ->
  exists st s' calls,
    cli_iteration lower ev w s = (Returned st, s') /\
    same_but_console s' (snd (run calls w t)) /\
    Forall (cli_call [ev]) calls.
Proof.
  intros R. destruct ev as [text| |e].
  - unfold cli_iteration, cli_body, bind, try_except, print, ret.
    destruct (str_in (lower (strip text)) [lit "quit"; lit "exit"; lit "q"]).
    { do 2 eexists. exists []. split; [reflexivity|]. split; [exact R|constructor]. }
    destruct (str_eqb (lower (strip text)) (lit "history")).
    { do 2 eexists. exists [Summary]. split.
      - rewrite get_conversation_summary_run. reflexivity.
      - split.
        + rewrite run_one, perform_summary. exact R.
        + constructor; [left; reflexivity | constructor]. }
    destruct (strip text) as [|c l] eqn:E.
    { do 2 eexists. exists []. split; [reflexivity|]. split; [exact R|constructor]. }
    cbn [py_not]. rewrite <- E.
    assert (N : strip text <> []) by (rewrite E; discriminate).
    match goal with
    | |- context [ask_question (strip text) (lit "qa") w ?s0] =>
        assert (R0 : same_but_console s0 t) by exact R;
        destruct (ask_question_console w (strip text) (lit "qa") R0) as [A B];
        destruct (ask_question_returns w s0 (strip text) (lit "qa"))
          as (answer & success & K);
        destruct (ask_question (strip text) (lit "qa") w s0) as [o s1]
    end.
    cbn [fst snd] in A, B, K. clear A. rewrite K. clear K.
    exists Running.
    assert (P : same_but_console s1 (snd (run [Ask (strip text) (lit "qa")] w t))).
    { rewrite run_one. unfold perform.
      destruct (ask_question (strip text) (lit "qa") w t) as [[[a b]|e'] t1];
        exact B. }
    assert (C : Forall (cli_call [Line text]) [Ask (strip text) (lit "qa")]).
    { constructor; [|constructor]. right. exists text.
      split; [left; reflexivity|]. split; [exact N | reflexivity]. }
    destruct success; eexists; exists [Ask (strip text) (lit "qa")];
      (split; [reflexivity|]); (split; [exact P | exact C]).
  - do 2 eexists. exists []. split; [reflexivity|]. split; [exact R|constructor].
  - do 2 eexists. exists []. split; [reflexivity|]. split; [exact R|constructor].
Qed.

Lemma cli_call_weaken (ev : input_event) (inputs : list input_event) (c : call) :
  cli_call [ev] c \/ cli_call inputs c -> cli_call (ev :: inputs) c.
Proof.
  unfold cli_call. intros [[S|(text & I & N & E)]|[S|(text & I & N & E)]]; auto.
  - right. exists text. destruct I as [I|[]]. split; [left; exact I|auto].
  - right. exists text. split; [right; exact I|auto].
Qed.

Lemma cli_loop_simulates (inputs : list input_event) w s t :
  same_but_console s t ->
  exists st calls,
    fst (cli_loop lower inputs w s) = Returned st /\
    same_but_console (snd (cli_loop lower inputs w s)) (snd (run calls w t)) /\
    Forall (cli_call inputs) calls.
Proof.
  revert s t. induction inputs as [|ev inputs IH]; intros s t R.
  - exists Running, []. cbn. split; [reflexivity|]. split; [exact R|constructor].
  - destruct (cli_iteration_simulates ev w R) as (st & s1 & c1 & E & R1 & C1).
    cbn [cli_loop]. unfold bind. rewrite E. destruct st.
    + destruct (IH s1 (snd (run c1 w t)) R1) as (st & c2 & E2 & R2 & C2).
      exists st, (c1 ++ c2). split; [exact E2|]. split.
      * rewrite run_app. exact R2.
      * apply Forall_app. split.
        -- eapply Forall_impl; [|exact C1]. intros c K.
           apply cli_call_weaken. left. exact K.
        -- eapply Forall_impl; [|exact C2]. intros c K.
           apply cli_call_weaken. right. exact K.
    + exists Stopped, c1. unfold ret. cbn [fst snd].
      split; [reflexivity|]. split; [exact R1|].
      eapply Forall_impl; [|exact C1]. intros c K.
      apply cli_call_weaken. left. exact K.
Qed.

(** X13.  The command line drives the core and nothing else.  Whatever is
    typed and whatever the hosted model does, the loop raises nothing, and
    it leaves the object, the log of the hosted model and the clocks as a
    sequence of calls of the core leaves them, each call being a summary or
    [ask_question] in mode [qa] on a typed line, stripped and not empty. *)
Theorem cli_drives_the_core (inputs : list input_event) w s :
  exists st calls,
    fst (cli_loop lower inputs w s) = Returned st /\
    same_but_console (snd (cli_loop lower inputs w s)) (snd (run calls w s)) /\
    Forall (cli_call inputs) calls.
Proof. exact (cli_loop_simulates inputs w (same_but_console_refl s)). Qed.

Lemma prompts_of_cli_calls (inputs : list input_event) (calls : list call) :
  Forall (cli_call inputs) calls ->
  Forall (fun p => exists text,
            In (Line text) inputs /\ strip text <> [] /\ p = qa_prompt (strip text))
         (prompts_of calls).
Proof.
  induction 1 as [|c calls C _ IH]; [constructor|].
  destruct C as [S|(text & I & N & E)]; subst c; cbn [prompts_of]; [exact IH|].
  rewrite (py_not_false (strip_strip_nonempty text N)).
  constructor; [|exact IH]. exists text. auto.
Qed.

(** X14.  Every prompt the command line sends to the hosted model is the
    [qa] template filled with a typed line stripped of the white space
    around it, and that line is not empty: the command line never uses
    another mode and never sends a blank question. *)
Theorem cli_sends_qa_prompts (inputs : list input_event) w s :
  exists sent,
    map fst (llm_log (snd (cli_loop lower inputs w s)))
    = map fst (llm_log s) ++ sent /\
    Forall (fun p => exists text,
              In (Line text) inputs /\ strip text <> [] /\
              p = qa_prompt (strip text))
           sent.
Proof.
  destruct (cli_loop_simulates inputs w (same_but_console_refl s))
    as (st & calls & _ & (_ & L & _) & C).
  exists (prompts_of calls). rewrite L, run_prompts.
  split; [reflexivity | exact (prompts_of_cli_calls C)].
Qed.

Lemma cli_loop_app (a b : list input_event) w s :
  cli_loop lower (a ++ b) w s =
  match cli_loop lower a w s with
  | (Returned Running, s') => cli_loop lower b w s'
  | other => other
  end.
Proof.
  revert s. induction a as [|ev a IH]; intros s; [reflexivity|].
  cbn [app cli_loop]. unfold bind.
  destruct (cli_iteration lower ev w s) as [[[|]|e] s1]; [apply IH| |]; reflexivity.
Qed.

(** X15.  The loop ends at the first line that, stripped and put in lower
    case, is "quit", "exit" or "q": what is typed after it is never read,
    and that line itself changes nothing but the console. *)
Theorem cli_stops_at_quit (before after : list input_event) (text : pystr) w s :
  fst (cli_loop lower before w s) = Returned Running ->
  str_in (lower (strip text)) quit_words = true ->
  cli_loop lower (before ++ Line text :: after) w s
  = cli_loop lower (before ++ [Line text]) w s /\
  fst (cli_loop lower (before ++ Line text :: after) w s) = Returned Stopped /\
  same_but_console (snd (cli_loop lower (before ++ Line text :: after) w s))
                   (snd (cli_loop lower before w s)).
Proof.
  intros R Q. rewrite !cli_loop_app.
  destruct (cli_loop lower before w s) as [o s1]. cbn [fst snd] in *. subst o.
  cbn [cli_loop]. unfold cli_iteration, cli_body, try_except, print, ret, bind.
  unfold quit_words in Q. rewrite Q. cbn [fst snd].
  split; [reflexivity|]. split; [reflexivity|].
  unfold same_but_console. auto.
Qed.

(** X16.  An exception of [input], such as the [EOFError] of a closed
    input, does not end the loop: after any number of them the loop is
    still running, the object and the hosted model are untouched, and the
    console has two more lines for each (the prompt and the report). *)
Theorem cli_survives_input_errors (errors : list exn) w s :
  fst (cli_loop lower (map InputError errors) w s) = Returned Running /\
  same_but_console (snd (cli_loop lower (map InputError errors) w s)) s /\
  length (stdout (snd (cli_loop lower (map InputError errors) w s)))
  = length (stdout s) + 2 * length errors.
Proof.
  revert s. induction errors as [|e errors IH]; intros s.
  - cbn. split; [reflexivity|]. split; [apply same_but_console_refl|lia].
  - cbn [map cli_loop]. unfold bind at 1 2 3.
    unfold cli_iteration, cli_body, bind, try_except, raise, print, ret.
    match goal with
    | |- context [cli_loop lower (map InputError errors) w ?s1] =>
        destruct (IH s1) as (A & B & C)
    end.
    split; [exact A|]. split.
    + eapply same_but_console_trans; [exact B|]. unfold same_but_console. auto.
    + rewrite C. cbn [stdout length]. rewrite !length_app. cbn [length]. lia.
Qed.

End CommandLineProperties.

(* ===================================================================== *)
(** ** The constructor and the start-up *)
(* ===================================================================== *)

Lemma quick_test_question_not_blank : strip quick_test_question <> [].
Proof. vm_compute. discriminate. Qed.

Lemma self_test_question_not_blank : strip self_test_question <> [].
Proof. vm_compute. discriminate. Qed.

Section StartupProperties.

Context {F : Type} `{PyFloat F}.

Variable lower : pystr -> pystr.
Variable cfg : AppConfig F.

Implicit Types (w : World F) (s : Store F) (client : outcome unit).
Implicit Types (create launch : Py F unit).

Lemma init_run client w s :
  ProfessionalQASystem_init cfg client w s =
  match client with
  | Returned _ =>
      (Returned tt,
       constructed cfg s
         [[9989%N] ++ lit " Gemini model initialized successfully!";
          [9989%N] ++ lit " Prompt chains created successfully!"])
  | Raised e =>
      (Raised e,
       constructed cfg s
         [[10060%N] ++ lit " Error initializing model: " ++ str_exn e])
  end.
Proof.
  unfold ProfessionalQASystem_init, setup_model, create_chains, constructed.
  destruct client as [u|e]; unfold bind, print, raise;
    cbn [self llm_log clock_reads stdout]; [rewrite <- app_assoc|]; reflexivity.
Qed.

(** X17.  On a store that holds nothing yet, the constructor gives the
    state in which a session starts: an empty history, the hosted model not
    invoked, and its two lines on the console.  In any store it installs an
    object with an empty history and leaves the log of the hosted model
    alone; if the model client cannot be built, it reports the error on the
    console and raises it again. *)
Theorem constructor_starts_a_session client w s :
  (forall u, client = Returned u ->
     fst (ProfessionalQASystem_init cfg client w s) = Returned tt) /\
  (forall e, client = Raised e ->
     fst (ProfessionalQASystem_init cfg client w s) = Raised e /\
     stdout (snd (ProfessionalQASystem_init cfg client w s))
     = stdout s ++ [[10060%N] ++ lit " Error initializing model: " ++ str_exn e]) /\
  conversation_history (self (snd (ProfessionalQASystem_init cfg client w s))) = [] /\
  llm_log (snd (ProfessionalQASystem_init cfg client w s)) = llm_log s /\
  (forall u,
     client = Returned u ->
     llm_log s = [] -> clock_reads s = 0 -> stdout s = [] ->
     snd (ProfessionalQASystem_init cfg client w s) = new_session cfg).
Proof.
  rewrite init_run. split; [|split; [|split; [|split]]].
  - intros u E. rewrite E. reflexivity.
  - intros e E. rewrite E. split; reflexivity.
  - destruct client; reflexivity.
  - destruct client; reflexivity.
  - intros u E L C O. rewrite E. cbn [snd]. unfold constructed, new_session.
    rewrite L, C, O. reflexivity.
Qed.

(** X18.  If the model client cannot be built, [cli_mode] raises the
    error of the constructor and reads nothing of what is typed; the hosted
    model is not invoked. *)
Theorem cli_mode_client_failure (e : exn) (inputs inputs' : list input_event) w s :
  fst (cli_mode lower cfg (Raised e) inputs w s) = Raised e /\
  llm_log (snd (cli_mode lower cfg (Raised e) inputs w s)) = llm_log s /\
  cli_mode lower cfg (Raised e) inputs' w s = cli_mode lower cfg (Raised e) inputs w s.
Proof.
  unfold cli_mode. unfold bind at 1 2 3 4 5 6 7 8 9 10 11 12.
  unfold print at 1 2 3 4 5 6 7 8 9.
  rewrite !init_run. cbn [fst snd]. auto.
Qed.

Lemma quick_test_run client w s :
  quick_test cfg client w s =
  let s0 := {| self := self s; llm_log := llm_log s; clock_reads := clock_reads s;
               stdout := stdout s ++ [[129514%N] ++ lit " Running Quick Test..."] |} in
  match ProfessionalQASystem_init cfg client w s0 with
  | (Raised e, s1) =>
      (Returned false,
       {| self := self s1; llm_log := llm_log s1; clock_reads := clock_reads s1;
          stdout := stdout s1 ++ [[10060%N] ++ lit " Test error: " ++ str_exn e] |})
  | (Returned _, s1) =>
      match ask_question quick_test_question (lit "qa") w s1 with
      | (Returned (answer, true), s2) =>
          (Returned true,
           {| self := self s2; llm_log := llm_log s2; clock_reads := clock_reads s2;
              stdout := stdout s2
                ++ [[9989%N] ++ lit " Quick test PASSED!";
                    [129302%N] ++ lit " Response: "
                    ++ py_slice answer None (Some 100%Z) ++ lit "..."] |})
      | (Returned (answer, false), s2) =>
          (Returned false,
           {| self := self s2; llm_log := llm_log s2; clock_reads := clock_reads s2;
              stdout := stdout s2 ++ [[10060%N] ++ lit " Quick test FAILED!"] |})
      | (Raised e, s2) =>
          (Returned false,
           {| self := self s2; llm_log := llm_log s2; clock_reads := clock_reads s2;
              stdout := stdout s2 ++ [[10060%N] ++ lit " Test error: " ++ str_exn e] |})
      end
  end.
Proof.
  cbv zeta. unfold quick_test, bind, try_except, print, ret.
  fold quick_test_question.
  destruct (ProfessionalQASystem_init cfg client w _) as [[u|e] s1]; [|reflexivity].
  destruct (ask_question quick_test_question (lit "qa") w s1)
    as [[[answer [|]]|e] s2]; cbn [self llm_log clock_reads stdout];
    rewrite <- ?app_assoc; reflexivity.
Qed.

(** X19.  [quick_test] raises nothing.  It returns [True] exactly when the
    model client could be built and the hosted model answered the question
    "Hello, how are you?" put in mode [qa]; it invokes the hosted model at
    most once. *)
Theorem quick_test_verdict client w s :
  exists passed,
    fst (quick_test cfg client w s) = Returned passed /\
    (passed = true <->
     exists u response,
       client = Returned u /\
       llm_invoke w (length (llm_log s)) (qa_prompt quick_test_question)
       = Returned response) /\
    length (llm_log (snd (quick_test cfg client w s))) <= length (llm_log s) + 1.
Proof.
  rewrite quick_test_run. cbv zeta. rewrite init_run.
  destruct client as [u|e].
  - rewrite ask_question_run by exact quick_test_question_not_blank.
    cbv zeta. unfold constructed. cbn [self llm_log clock_reads stdout].
    change (filled_prompt (lit "qa") quick_test_question)
      with (qa_prompt quick_test_question).
    destruct (llm_invoke w (length (llm_log s)) (qa_prompt quick_test_question))
      as [response|e]; cbn [fst snd llm_log].
    + exists true. split; [reflexivity|]. split.
      * split; [intros _; eauto | reflexivity].
      * rewrite length_app. cbn [length]. lia.
    + exists false. split; [reflexivity|]. split.
      * split; [discriminate|]. intros (u' & response & _ & K). discriminate K.
      * rewrite length_app. cbn [length]. lia.
  - exists false. cbn [fst snd]. split; [reflexivity|]. split.
    + split; [discriminate|]. intros (u' & response & K & _). discriminate K.
    + unfold constructed. cbn [llm_log]. lia.
Qed.

End StartupProperties.

Section MainProperties.

Context {F : Type} `{PyFloat F}.

Variable cfg : AppConfig F.

Implicit Types (w : World F) (s : Store F) (client : outcome unit).
Implicit Types (create launch : Py F unit).

(** [main], once the constructor and the self-test are unfolded. *)
Lemma main_run create launch client w s :
  main cfg create launch client w s =
  let say := fun (t : Store F) (lines : list pystr) =>
    {| self := self t; llm_log := llm_log t; clock_reads := clock_reads t;
       stdout := stdout t ++ lines |} in
  let failed := fun (e : exn) (t : Store F) =>
    (Returned (StartFailed e),
     say t [[10060%N] ++ lit " Error starting application: " ++ str_exn e;
            lit "Please check your API key and internet connection."]) in
  let s0 := say s [[128640%N] ++ lit " Initializing BrainSync Pro..."; repeat 61%N 60] in
  match ProfessionalQASystem_init cfg client w s0 with
  | (Raised e, s1) => failed e s1
  | (Returned _, s1) =>
      match ask_question self_test_question (lit "qa") w
              (say s1 [nl ++ [129514%N] ++ lit " Testing system functionality..."])
      with
      | (Returned (test_answer, true), s2) =>
          interface_phase create launch w
            (say s2 [[9989%N] ++ lit " System test passed!";
                     [128221%N] ++ lit " Test response: "
                     ++ py_slice test_answer None (Some 100%Z) ++ lit "...";
                     nl ++ [127912%N] ++ lit " Creating professional interface..."])
      | (Returned (test_answer, false), s2) =>
          (Returned SelfTestFailed, say s2 [[10060%N] ++ lit " System test failed!"])
      | (Raised e, s2) => failed e s2
      end
  end.
Proof.
  cbv zeta. unfold main, interface_phase, rule.
  fold self_test_question.
  unfold bind, try_except, print, ret.
  cbn [self llm_log clock_reads stdout]. rewrite <- !app_assoc. cbn [app].
  destruct (ProfessionalQASystem_init cfg client w _) as [[u|e] s1];
    [|cbn [self llm_log clock_reads stdout]; rewrite <- !app_assoc; reflexivity].
  destruct (ask_question self_test_question (lit "qa") w _)
    as [[[test_answer [|]]|e] s2];
    cbn [self llm_log clock_reads stdout]; rewrite <- ?app_assoc; cbn [app];
    reflexivity.
Qed.

(** X20.  [main] creates and launches the interface only after its
    self-test has passed.  If the model client cannot be built, or if the
    hosted model does not answer the test question, [main] does not end
    with a launch, raises nothing, and behaves the same whatever the
    interface code is: that code is not reached. *)
Theorem main_gates_the_interface create launch client w s :
  ~ (exists u response,
       client = Returned u /\
       llm_invoke w (length (llm_log s)) (qa_prompt self_test_question)
       = Returned response) ->
  (exists e, fst (main cfg create launch client w s) = Returned (StartFailed e) \/
             fst (main cfg create launch client w s) = Returned SelfTestFailed) /\
  conversation_history (self (snd (main cfg create launch client w s))) = [] /\
  (forall create' launch',
     main cfg create' launch' client w s = main cfg create launch client w s).
Proof.
  intros N.
  assert (E : forall create launch,
            main cfg create launch client w s =
            main cfg (ret tt) (ret tt) client w s /\
            (exists e,
               fst (main cfg create launch client w s) = Returned (StartFailed e) \/
               fst (main cfg create launch client w s) = Returned SelfTestFailed) /\
            conversation_history (self (snd (main cfg create launch client w s))) = []).
  { intros c l. rewrite !main_run. cbv zeta. rewrite init_run.
    destruct client as [u|e].
    - rewrite ask_question_run by exact self_test_question_not_blank.
      cbv zeta. unfold constructed. cbn [self llm_log clock_reads stdout].
      change (filled_prompt (lit "qa") self_test_question)
        with (qa_prompt self_test_question).
      destruct (llm_invoke w (length (llm_log s)) (qa_prompt self_test_question))
        as [response|e] eqn:K.
      + exfalso. apply N. eauto.
      + cbn [fst snd self conversation_history].
        split; [reflexivity|]. split; [exists e; right; reflexivity | reflexivity].
    - cbn [fst snd self constructed conversation_history].
      split; [reflexivity|]. split; [exists e; left; reflexivity | reflexivity]. }
  destruct (E create launch) as (E1 & E2 & E3).
  split; [exact E2|]. split; [exact E3|].
  intros c l. destruct (E c l) as (E1' & _). rewrite E1', E1. reflexivity.
Qed.

(** X21.  When the model client is built and the hosted model answers the
    test question, the interface is created and launched on an object whose
    history already holds one record, the exchange of the self-test on
    "What is artificial intelligence?" in mode [qa]; the hosted model has
    been invoked once. *)
Theorem main_interface_sees_self_test client w s (u : unit) (response : AIMessage) :
  client = Returned u ->
  llm_invoke w (length (llm_log s)) (qa_prompt self_test_question)
  = Returned response ->
  exists s1 r,
    conversation_history (self s1) = [r] /\
    question r = self_test_question /\
    chain_type r = lit "qa" /\
    answer r = content response /\
    llm_log s1 = llm_log s ++ [(qa_prompt self_test_question, Returned response)] /\
    forall create launch,
      main cfg create launch client w s = interface_phase create launch w s1.
Proof.
  intros C K. subst client.
  pose proof (fun c l => main_run c l (Returned u) w s) as M. cbv zeta in M.
  rewrite init_run in M.
  rewrite ask_question_run in M by exact self_test_question_not_blank.
  cbv zeta in M. unfold constructed in M.
  cbn [self llm_log clock_reads stdout] in M.
  change (filled_prompt (lit "qa") self_test_question)
    with (qa_prompt self_test_question) in M.
  rewrite K in M.
  eexists. eexists. repeat split; [..|exact M];
    cbn [self conversation_history llm_log app question chain_type answer];
    reflexivity.
Qed.

Lemma launch_brainsync_pro_run create launch (in_colab : bool) (client1 client2 : outcome unit) w s :
  launch_brainsync_pro cfg create launch in_colab client1 client2 w s =
  let say := fun (t : Store F) (lines : list pystr) =>
    {| self := self t; llm_log := llm_log t; clock_reads := clock_reads t;
       stdout := stdout t ++ lines |} in
  match quick_test cfg client1 w (say s [[127881%N] ++ lit " Starting BrainSync Pro..."]) with
  | (Returned true, s1) =>
      match main cfg create launch client2 w
              (say s1 [nl ++ [128640%N] ++ lit " Launching full application...";
                       [128640%N] ++ lit " BrainSync Pro - Elite AI Intelligence Platform";
                       repeat 61%N 60;
                       [128241%N] ++ lit " Environment: "
                       ++ (if in_colab then lit "Google Colab" else lit "Local/Jupyter");
                       [129302%N] ++ lit " Model: Gemini 1.5 Flash";
                       [128279%N] ++ lit " Framework: LangChain";
                       repeat 61%N 60])
      with
      | (Returned e, s2) => (Returned (Some e), s2)
      | (Raised e, s2) => (Raised e, s2)
      end
  | (Returned false, s1) =>
      (Returned None,
       say s1 [[10060%N] ++ lit " System test failed. Please check your setup."])
  | (Raised e, s1) => (Raised e, s1)
  end.
Proof.
  cbv zeta. unfold launch_brainsync_pro, complete_startup, rule.
  unfold bind at 1 2. unfold print at 1.
  destruct (quick_test cfg client1 w _) as [[[|]|e] s1]; [|reflexivity|reflexivity].
  unfold bind, print, ret. cbn [self llm_log clock_reads stdout].
  rewrite <- !app_assoc. cbn [app]. reflexivity.
Qed.

(** X22.  [launch_brainsync_pro] goes on to [main] only when the quick
    test has passed.  If the model client cannot be built or the hosted
    model does not answer "Hello, how are you?", it returns without a
    launch, having invoked the hosted model at most once, and neither the
    second construction nor the interface code is reached. *)
Theorem launch_stops_after_failed_quick_test
  create launch (in_colab : bool) (client1 client2 : outcome unit) w s :
  ~ (exists u response,
       client1 = Returned u /\
       llm_invoke w (length (llm_log s)) (qa_prompt quick_test_question)
       = Returned response) ->
  fst (launch_brainsync_pro cfg create launch in_colab client1 client2 w s)
  = Returned None /\
  length (llm_log (snd (launch_brainsync_pro cfg create launch in_colab
                          client1 client2 w s)))
  <= length (llm_log s) + 1 /\
  (forall create' launch' in_colab' client2',
     launch_brainsync_pro cfg create' launch' in_colab' client1 client2' w s
     = launch_brainsync_pro cfg create launch in_colab client1 client2 w s).
Proof.
  intros N.
  assert (E : exists s1,
            length (llm_log s1) <= length (llm_log s) + 1 /\
            forall c l b c2,
              launch_brainsync_pro cfg c l b client1 c2 w s = (Returned None, s1)).
  { pose proof (fun c l b c2 => launch_brainsync_pro_run c l b client1 c2 w s) as M.
    cbv zeta in M. rewrite quick_test_run in M. cbv zeta in M.
    rewrite init_run in M. destruct client1 as [u|e].
    - rewrite ask_question_run in M by exact quick_test_question_not_blank.
      cbv zeta in M. unfold constructed in M.
      cbn [self llm_log clock_reads stdout] in M.
      change (filled_prompt (lit "qa") quick_test_question)
        with (qa_prompt quick_test_question) in M.
      destruct (llm_invoke w (length (llm_log s)) (qa_prompt quick_test_question))
        as [response|e] eqn:K.
      + exfalso. apply N. eauto.
      + eexists. split; [|exact M]. cbn [llm_log]. rewrite length_app.
        cbn [length]. lia.
    - eexists. split; [|exact M]. cbn [llm_log constructed]. lia. }
  destruct E as (s1 & L & E).
  rewrite !E. cbn [fst snd]. split; [reflexivity|]. split; [exact L|].
  intros c l b c2. rewrite E. reflexivity.
Qed.

(** X23.  When both start-up tests pass, the hosted model has been invoked
    twice before the interface is created, on "Hello, how are you?" and on
    "What is artificial intelligence?", both in mode [qa]; but the object
    that the interface receives is the second one built, and its history
    holds the second exchange only. *)
Theorem launch_runs_two_tests
  (in_colab : bool) (client1 client2 : outcome unit) w s
  (u1 u2 : unit) (response1 response2 : AIMessage) :
  client1 = Returned u1 ->
  llm_invoke w (length (llm_log s)) (qa_prompt quick_test_question)
  = Returned response1 ->
  client2 = Returned u2 ->
  llm_invoke w (S (length (llm_log s))) (qa_prompt self_test_question)
  = Returned response2 ->
  exists s1 r,
    conversation_history (self s1) = [r] /\
    question r = self_test_question /\
    answer r = content response2 /\
    map fst (llm_log s1)
    = map fst (llm_log s)
      ++ [qa_prompt quick_test_question; qa_prompt self_test_question] /\
    forall create launch,
      launch_brainsync_pro cfg create launch in_colab client1 client2 w s
      = bind (interface_phase create launch) (fun e => ret (Some e)) w s1.
Proof.
  intros C1 K1 C2 K2. subst client1 client2.
  pose proof (fun c l => launch_brainsync_pro_run c l in_colab
                           (Returned u1) (Returned u2) w s) as M.
  cbv zeta in M. rewrite quick_test_run in M. cbv zeta in M.
  rewrite init_run in M.
  rewrite ask_question_run in M by exact quick_test_question_not_blank.
  cbv zeta in M. unfold constructed in M.
  cbn [self llm_log clock_reads stdout] in M.
  change (filled_prompt (lit "qa") quick_test_question)
    with (qa_prompt quick_test_question) in M.
  rewrite K1 in M.
  assert (M' := fun c l => eq_trans (M c l) eq_refl). clear M.
  pose proof (fun c l t => main_run c l (Returned u2) w t) as R. cbv zeta in R.
  setoid_rewrite init_run in R.
  setoid_rewrite (fun t => @ask_question_run F H w t self_test_question (lit "qa")
                             self_test_question_not_blank) in R.
  cbv zeta in R. unfold constructed in R.
  cbn [self llm_log clock_reads stdout] in R.
  change (filled_prompt (lit "qa") self_test_question)
    with (qa_prompt self_test_question) in R.
  setoid_rewrite R in M'. cbn [self llm_log clock_reads stdout] in M'.
  rewrite length_app in M'. cbn [length] in M'.
  rewrite Nat.add_1_r in M'. rewrite K2 in M'.
  eexists. eexists. repeat split; [..|intros c l; rewrite (M' c l); reflexivity];
    cbn [self conversation_history llm_log app question answer];
    rewrite ?map_app, <- ?app_assoc; reflexivity.
Qed.

End MainProperties.

(* ===================================================================== *)
(** ** The properties of sessions and front ends on the test doubles *)
(* ===================================================================== *)

Import Script.

Lemma history_is_append_only_witness :
  nth_error (conversation_history (self (with_history seven))) 2
  = Some (record (lit "q3") (lit "a3")) /\
  nth_error (conversation_history
               (self (snd (run some_calls answering (with_history seven))))) 2
  = Some (record (lit "q3") (lit "a3")).
Proof.
  assert (K : nth_error (conversation_history (self (with_history seven))) 2
              = Some (record (lit "q3") (lit "a3"))) by reflexivity.
  split; [exact K|].
  exact (@history_is_append_only Z _ some_calls answering (with_history seven) 2 _ K).
Defined.

Lemma console_line_iff_failure_witness :
  fst (ask_question (lit "What is AI?") (lit "qa") failing fresh)
  = Returned (lit "Error processing question: quota exceeded", false) /\
  ~ whitespace_only (lit "What is AI?") /\
  llm_invoke failing (length (llm_log fresh))
    (filled_prompt (lit "qa") (lit "What is AI?"))
  = Raised (Exception (lit "quota exceeded")) /\
  stdout (snd (ask_question (lit "What is AI?") (lit "qa") failing fresh))
  = stdout fresh
    ++ [[10060%N] ++ lit " " ++ lit "Error processing question: quota exceeded"] /\
  fst (ask_question (lit "What is AI?") (lit "qa") answering fresh)
  = Returned (lit "Answer number 1", true) /\
  stdout (snd (ask_question (lit "What is AI?") (lit "qa") answering fresh))
  = stdout fresh /\
  whitespace_only (lit "  ") /\
  stdout (snd (ask_question (lit "  ") (lit "qa") failing fresh)) = stdout fresh.
Proof.
  assert (K : fst (ask_question (lit "What is AI?") (lit "qa") failing fresh)
              = Returned (lit "Error processing question: quota exceeded", false))
    by reflexivity.
  assert (K' : fst (ask_question (lit "What is AI?") (lit "qa") answering fresh)
               = Returned (lit "Answer number 1", true)) by reflexivity.
  assert (K'' : fst (ask_question (lit "  ") (lit "qa") failing fresh)
                = Returned (lit "Please enter a valid question.", false))
    by reflexivity.
  assert (W : whitespace_only (lit "  ")) by (repeat constructor).
  pose proof (@console_line_iff_failure Z _ failing fresh (lit "What is AI?")
                (lit "qa") _ _ K) as P.
  pose proof (@console_line_iff_failure Z _ answering fresh (lit "What is AI?")
                (lit "qa") _ _ K') as P'.
  pose proof (@console_line_iff_failure Z _ failing fresh (lit "  ")
                (lit "qa") _ _ K'') as P''.
  cbv zeta in P, P', P''.
  destruct P as (_ & _ & P & _). destruct P' as (P' & _).
  destruct P'' as (_ & _ & _ & _ & P'').
  split; [exact K|]. split; [exact what_is_ai_not_blank|]. split; [reflexivity|].
  split; [exact (proj1 (proj2 (proj2 (P _ what_is_ai_not_blank eq_refl))))|].
  split; [exact K'|]. split; [exact (P' eq_refl)|].
  split; [exact W | exact (proj1 (P'' W))].
Defined.

Lemma braces_not_blank : ~ whitespace_only (lit "{style}").
Proof. apply strip_not_blank. vm_compute. discriminate. Defined.

(** A question that looks like a placeholder of the template. *)
Lemma question_spliced_verbatim_witness :
  ~ whitespace_only (lit "{style}") /\
  exists head tail result,
    llm_log (snd (ask_question (lit "{style}") (lit "creative") answering fresh))
    = llm_log fresh ++ [(head ++ lit "{style}" ++ tail, result)].
Proof.
  split; [exact braces_not_blank|].
  destruct (@question_spliced_verbatim Z _ (lit "creative")) as (head & tail & K).
  destruct (K answering fresh (lit "{style}") braces_not_blank) as (result & E).
  exists head, tail, result. exact E.
Defined.

Lemma summary_heading_counts_successes_witness :
  0 < successes (fst (run some_calls answering (new_session cfg))) /\
  successes (fst (run [Ask [] (lit "qa")] answering (new_session cfg))) = 0 /\
  fst (get_conversation_summary failing
         (snd (run [Ask [] (lit "qa")] answering (new_session cfg))))
  = Returned no_history_message /\
  exists body,
    fst (get_conversation_summary failing
           (snd (run some_calls answering (new_session cfg))))
    = Returned (heading (successes (fst (run some_calls answering (new_session cfg))))
                ++ body).
Proof.
  assert (P : 0 < successes (fst (run some_calls answering (new_session cfg))))
    by (vm_compute; lia).
  assert (Z0 : successes (fst (run [Ask [] (lit "qa")] answering (new_session cfg))) = 0)
    by reflexivity.
  split; [exact P|]. split; [exact Z0|].
  pose proof (@summary_heading_counts_successes Z _ cfg [Ask [] (lit "qa")]
                answering failing) as A.
  pose proof (@summary_heading_counts_successes Z _ cfg some_calls
                answering failing) as B.
  cbv zeta in A, B. destruct A as [A _]. destruct B as [_ B].
  split; [exact (A Z0) | exact (B P)].
Defined.

Lemma failed_ask_keeps_summary_witness :
  fst (ask_question (lit "What is AI?") (lit "qa") failing (with_history seven))
  = Returned (lit "Error processing question: quota exceeded", false) /\
  fst (get_conversation_summary answering
         (snd (ask_question (lit "What is AI?") (lit "qa") failing (with_history seven))))
  = fst (get_conversation_summary answering (with_history seven)).
Proof.
  assert (K : fst (ask_question (lit "What is AI?") (lit "qa") failing
                     (with_history seven))
              = Returned (lit "Error processing question: quota exceeded", false))
    by reflexivity.
  split; [exact K|].
  exact (@failed_ask_keeps_summary Z _ failing answering (with_history seven)
           (lit "What is AI?") (lit "qa") _ K).
Defined.

Lemma summary_ignores_old_records_witness :
  conversation_history (self (with_history seven)) = firstn 2 seven ++ skipn 2 seven /\
  length (skipn 2 seven) = 5 /\
  fst (get_conversation_summary answering (with_history seven))
  = fst (get_conversation_summary failing
           (with_history ([record (lit "x") (lit "y"); record [] []] ++ skipn 2 seven))).
Proof.
  assert (A : conversation_history (self (with_history seven))
              = firstn 2 seven ++ skipn 2 seven) by reflexivity.
  assert (B : length (skipn 2 seven) = 5) by reflexivity.
  split; [exact A|]. split; [exact B|].
  exact (@summary_ignores_old_records Z _ answering failing (with_history seven)
           (with_history ([record (lit "x") (lit "y"); record [] []] ++ skipn 2 seven))
           (firstn 2 seven) [record (lit "x") (lit "y"); record [] []] (skipn 2 seven)
           A eq_refl B eq_refl).
Defined.

Lemma process_question_blank_input_witness :
  whitespace_only (lit "  ") /\
  process_question (lit "  ") (lit "creative") answering fresh
  = (Returned ([], status_empty), fresh).
Proof.
  assert (W : whitespace_only (lit "  ")) by (repeat constructor).
  split; [exact W|].
  exact (@process_question_blank_input Z _ answering fresh (lit "  ") (lit "creative") W).
Defined.

Lemma process_question_outcomes_witness :
  ~ whitespace_only (lit "What is AI?") /\
  fst (process_question (lit "What is AI?") (lit "qa") answering fresh)
  = Returned (lit "Answer number 1", status_ok) /\
  length (llm_log (snd (process_question (lit "What is AI?") (lit "qa")
                          answering fresh))) = 1 /\
  fst (process_question (lit "What is AI?") (lit "qa") failing fresh)
  = Returned (error_prefix ++ lit "quota exceeded", status_error) /\
  length (llm_log (snd (process_question (lit "What is AI?") (lit "qa")
                          failing fresh))) = 1.
Proof.
  split; [exact what_is_ai_not_blank|].
  pose proof (@process_question_outcomes Z _ answering fresh (lit "What is AI?")
                (lit "qa") what_is_ai_not_blank) as A.
  pose proof (@process_question_outcomes Z _ failing fresh (lit "What is AI?")
                (lit "qa") what_is_ai_not_blank) as B.
  cbv zeta in A, B.
  destruct A as [(response & K & A & _ & LA)|(e & K & _)]; [|discriminate K].
  destruct B as [(response' & K' & _)|(e & K' & B & _ & LB)]; [discriminate K'|].
  split; [rewrite A; inversion K; reflexivity|].
  split; [rewrite LA; reflexivity|].
  split; [rewrite B; inversion K'; reflexivity|].
  rewrite LB. reflexivity.
Defined.

Lemma cli_stops_at_quit_witness :
  fst (cli_loop ascii_lower [Line (lit "What is AI?")] answering fresh)
  = Returned Running /\
  str_in (ascii_lower (strip (lit " QUIT "))) quit_words = true /\
  cli_loop ascii_lower
    ([Line (lit "What is AI?")] ++ Line (lit " QUIT ") :: [Line (lit "never read")])
    answering fresh
  = cli_loop ascii_lower ([Line (lit "What is AI?")] ++ [Line (lit " QUIT ")])
      answering fresh /\
  fst (cli_loop ascii_lower
         ([Line (lit "What is AI?")] ++ Line (lit " QUIT ") :: [Line (lit "never read")])
         answering fresh)
  = Returned Stopped.
Proof.
  assert (R : fst (cli_loop ascii_lower [Line (lit "What is AI?")] answering fresh)
              = Returned Running) by reflexivity.
  assert (Q : str_in (ascii_lower (strip (lit " QUIT "))) quit_words = true)
    by reflexivity.
  split; [exact R|]. split; [exact Q|].
  destruct (@cli_stops_at_quit Z _ ascii_lower [Line (lit "What is AI?")]
              [Line (lit "never read")] (lit " QUIT ") answering fresh R Q)
    as (A & B & _).
  split; [exact A | exact B].
Defined.

Lemma constructor_starts_a_session_witness :
  snd (ProfessionalQASystem_init cfg (Returned tt) answering (with_history seven))
  = new_session cfg /\
  fst (ProfessionalQASystem_init cfg (Raised (Exception (lit "bad key")))
         answering fresh)
  = Raised (Exception (lit "bad key")).
Proof.
  split.
  - destruct (constructor_starts_a_session cfg (Returned tt) answering
                (with_history seven)) as (_ & _ & _ & _ & K).
    exact (K tt eq_refl eq_refl eq_refl eq_refl).
  - destruct (constructor_starts_a_session cfg
                (Raised (Exception (lit "bad key"))) answering fresh)
      as (_ & K & _).
    destruct (K _ eq_refl) as [K1 _]. exact K1.
Defined.

Lemma quick_test_verdict_witness :
  fst (quick_test cfg (Returned tt) answering fresh) = Returned true /\
  fst (quick_test cfg (Returned tt) failing fresh) = Returned false.
Proof.
  destruct (@quick_test_verdict Z _ cfg (Returned tt) answering fresh)
    as (a & A1 & [_ A2] & _).
  destruct (@quick_test_verdict Z _ cfg (Returned tt) failing fresh)
    as (b & B1 & [B2 _] & _).
  split.
  - rewrite A1, A2; [reflexivity|].
    exists tt, {| content := lit "Answer number 1" |}. split; reflexivity.
  - rewrite B1. destruct b; [|reflexivity].
    destruct (B2 eq_refl) as (u & response & _ & K). discriminate K.
Defined.

Lemma failing_never_answers (n : nat) (p : pystr) :
  ~ (exists (u : unit) (response : AIMessage),
       Returned tt = Returned u /\ llm_invoke failing n p = Returned response).
Proof. intros (u & response & _ & K). discriminate K. Defined.

Lemma main_gates_the_interface_witness :
  ~ (exists u response,
       Returned tt = Returned u /\
       llm_invoke failing (length (llm_log fresh)) (qa_prompt self_test_question)
       = Returned response) /\
  fst (main cfg no_interface no_interface (Returned tt) failing fresh)
  = Returned SelfTestFailed /\
  conversation_history
    (self (snd (main cfg no_interface no_interface (Returned tt) failing fresh))) = [].
Proof.
  split; [apply failing_never_answers|].
  destruct (@main_gates_the_interface Z _ cfg no_interface no_interface (Returned tt)
              failing fresh (@failing_never_answers _ _)) as (_ & A & _).
  split; [reflexivity | exact A].
Defined.

Lemma main_interface_sees_self_test_witness :
  llm_invoke answering (length (llm_log fresh)) (qa_prompt self_test_question)
  = Returned {| content := lit "Answer number 1" |} /\
  exists s1 r,
    conversation_history (self s1) = [r] /\
    question r = self_test_question /\
    main cfg no_interface no_interface (Returned tt) answering fresh
    = interface_phase no_interface no_interface answering s1.
Proof.
  split; [reflexivity|].
  destruct (@main_interface_sees_self_test Z _ cfg (Returned tt) answering fresh
              tt {| content := lit "Answer number 1" |} eq_refl eq_refl)
    as (s1 & r & A & B & _ & _ & _ & K).
  exists s1, r. split; [exact A|]. split; [exact B|]. apply K.
Defined.

Lemma launch_stops_after_failed_quick_test_witness :
  ~ (exists u response,
       Returned tt = Returned u /\
       llm_invoke failing (length (llm_log fresh)) (qa_prompt quick_test_question)
       = Returned response) /\
  fst (launch_brainsync_pro cfg no_interface no_interface false
         (Returned tt) (Returned tt) failing fresh)
  = Returned None.
Proof.
  split; [apply failing_never_answers|].
  destruct (@launch_stops_after_failed_quick_test Z _ cfg no_interface no_interface
              false (Returned tt) (Returned tt) failing fresh
              (@failing_never_answers _ _)) as (A & _).
  exact A.
Defined.

Lemma launch_runs_two_tests_witness :
  llm_invoke answering (length (llm_log fresh)) (qa_prompt quick_test_question)
  = Returned {| content := lit "Answer number 1" |} /\
  llm_invoke answering (S (length (llm_log fresh))) (qa_prompt self_test_question)
  = Returned {| content := lit "Answer number 2" |} /\
  exists (s1 : Store Z) (r : Interaction Z),
    conversation_history (self s1) = [r] /\
    question r = self_test_question /\
    answer r = lit "Answer number 2" /\
    map fst (llm_log s1)
    = [qa_prompt quick_test_question; qa_prompt self_test_question].
Proof.
  split; [reflexivity|]. split; [reflexivity|].
  destruct (@launch_runs_two_tests Z _ cfg false (Returned tt) (Returned tt) answering fresh
              tt tt {| content := lit "Answer number 1" |}
              {| content := lit "Answer number 2" |}
              eq_refl eq_refl eq_refl eq_refl)
    as (s1 & r & A & B & C & D & _).
  exists s1, r. repeat split; assumption.
Defined.

(** A command-line session and a series of clicks, run. *)

Example cli_typed_example :
  fst (cli_loop ascii_lower typed answering fresh) = Returned Stopped /\
  map (fun r => question r)
      (conversation_history (self (snd (cli_loop ascii_lower typed answering fresh))))
  = [lit "What is AI?"].
Proof. split; reflexivity. Qed.

Example clicks_example :
  map snd match fst (ui_run clicks answering fresh) with
          | Returned outs => outs
          | Raised _ => []
          end
  = [status_ok; []; status_empty; status_ok] /\
  length (conversation_history (self (snd (ui_run clicks answering fresh)))) = 2.
Proof. split; reflexivity. Qed.
